(** * remove-subs: the pipeline orchestration layer, embedded in Rocq

    A shallow embedding of the Python sources
      - docker/gpu_detector.py        (capability detection),
      - docker/s3_handler.py          (storage staging client),
      - docker/video_processor.py     (frame extraction, reassembly, masks),
      - docker/lama_zits_pipeline.py and notebook/lama_zits_pipeline.py
                                      (synthetic corpus generators),
    followed by the properties the specification states about them.

    Conventions.
    - A Python call that may raise is a value of [result]; code that also
      talks to the outside world (file system, child processes, the object
      store, stdout) runs in the monad [M], which threads the world and a
      log of every external call in program order.
    - Python [str] values are sequences of code points; here they are Rocq
      strings, sequences of bytes in UTF-8.  Every character the sources
      test or split on is ASCII, and an ASCII byte never occurs inside a
      multi-byte UTF-8 sequence, so prefix, suffix, split and replace agree
      on both views.
    - A Python dict built with string keys is a [gmap string _]. *)

From Stdlib Require Import ZArith List String Ascii Lia QArith.
From stdpp Require Import base option list strings gmap pretty.

Local Open Scope string_scope.
Local Open Scope Z_scope.
Local Open Scope list_scope.

(** ** Python values, exceptions and the two monads *)

Module Py.

(** The exception classes the sources raise, catch or can receive from
    the libraries they call.  All of them derive from [Exception]. *)
Inductive exn_class : Type :=
| ValueError
| KeyError
| OSError              (* with its subclasses FileNotFoundError, PermissionError *)
| ClientError          (* botocore.exceptions.ClientError *)
| NoCredentialsError   (* botocore.exceptions.NoCredentialsError *)
| BotoCoreError        (* any other botocore error: endpoint, timeout, validation *)
| S3UploadFailedError  (* boto3.exceptions.S3UploadFailedError *)
| RuntimeError
| TypeError.

Record exn : Type := Exn { exn_cls : exn_class; exn_msg : string }.

Definition exn_class_eqb (a b : exn_class) : bool :=
  match a, b with
  | ValueError, ValueError | KeyError, KeyError | OSError, OSError
  | ClientError, ClientError | NoCredentialsError, NoCredentialsError
  | BotoCoreError, BotoCoreError | S3UploadFailedError, S3UploadFailedError
  | RuntimeError, RuntimeError => true
  | _, _ => false
  end.

(** Outcome of a Python expression: a value or a raised exception. *)
Inductive result (A : Type) : Type :=
| Ok (a : A)
| Raise (e : exn).
Arguments Ok {A} a.
Arguments Raise {A} e.

Definition rbind {A B} (r : result A) (k : A -> result B) : result B :=
  match r with
  | Ok a => k a
  | Raise e => Raise e
  end.

Definition is_ok {A} (r : result A) : bool :=
  match r with Ok _ => true | Raise _ => false end.

(** Values stored in the configuration dicts. *)
Inductive value : Type :=
| VBool (b : bool)
| VInt (z : Z)
| VStr (s : string)
| VFloat (q : Q).   (* the real number; Python keeps its nearest double *)

(** [str(b).lower()] for a bool. *)
Definition str_lower_bool (b : bool) : string :=
  if b then "true" else "false".

(** *** The string methods the sources use *)

(** [s.startswith(p)] *)
Definition startswith (s p : string) : bool := String.prefix p s.

(** [s[n:]] for [n >= 0] *)
Fixpoint str_drop (n : nat) (s : string) : string :=
  match n, s with
  | O, _ => s
  | S n', String _ s' => str_drop n' s'
  | S _, EmptyString => EmptyString
  end.

Fixpoint str_rev_onto (s acc : string) : string :=
  match s with
  | EmptyString => acc
  | String c s' => str_rev_onto s' (String c acc)
  end.

(** [s.endswith(p)] *)
Definition endswith (s p : string) : bool :=
  String.prefix (str_rev_onto p EmptyString) (str_rev_onto s EmptyString).

(** [s.split(sep, 1)] for a one-character separator: the text before the
    first [sep] and the text after it, or [s] alone when [sep] is absent. *)
Fixpoint split_once (sep : ascii) (s : string) : list string :=
  match s with
  | EmptyString => [EmptyString]
  | String c s' =>
      if Ascii.eqb c sep then [EmptyString; s']
      else match split_once sep s' with
           | h :: t => String c h :: t
           | [] => []
           end
  end.

(** [s.replace(old, new)] for one-character [old] and [new] *)
Fixpoint replace_char (old new : ascii) (s : string) : string :=
  match s with
  | EmptyString => EmptyString
  | String c s' =>
      String (if Ascii.eqb c old then new else c) (replace_char old new s')
  end.

(** [s.replace(old, new)] for a non-empty [old]: occurrences are replaced
    left to right without overlap.  [skip] counts the characters of an
    occurrence already replaced that are still to be passed over. *)
Fixpoint replace_from (old new : string) (skip : nat) (s : string) : string :=
  match s with
  | EmptyString => EmptyString
  | String c s' =>
      match skip with
      | S k => replace_from old new k s'
      | O =>
          if String.prefix old s
          then new +:+ replace_from old new (String.length old - 1) s'
          else String c (replace_from old new O s')
      end
  end.

Definition replace (s old new : string) : string := replace_from old new O s.

(** [l.insert(i, x)]: a negative index counts from the end, and an index
    out of range is clamped to the nearest end. *)
Definition list_insert_at {A} (i : Z) (x : A) (l : list A) : list A :=
  let n := Z.of_nat (length l) in
  let k := if (i <? 0)%Z then Z.max 0 (n + i)%Z else Z.min i n in
  take (Z.to_nat k) l ++ x :: drop (Z.to_nat k) l.

(** [sorted(l)] for a list of strings, by insertion. *)
Fixpoint insert_sorted (x : string) (l : list string) : list string :=
  match l with
  | [] => [x]
  | y :: l' => if String.leb x y then x :: l else y :: insert_sorted x l'
  end.

Definition sorted (l : list string) : list string :=
  foldr insert_sorted [] l.

(** [str(n)] and [f"{n:0wd}"] for an int [n >= 0]. *)
Definition str_int (n : Z) : string := pretty n.

Definition zero_padded (w : nat) (n : Z) : string :=
  let d := pretty n in
  String.concat EmptyString (replicate (w - String.length d) "0") +:+ d.

(** Pieces of an f-string: literal text and formatted values. *)
Inductive piece : Type :=
| PStr (s : string)
| PInt (z : Z)            (* {n} *)
| PReal (q : Q)           (* {x} *)
| PFixed1 (q : Q)         (* {x:.1f} *)
| PExn (e : exn)          (* {str(e)} *)
| PNewline.               (* \n inside the literal *)

Definition message : Type := list piece.

End Py.

Import Py.

#[global] Instance result_ret : MRet result := @Ok.
#[global] Instance result_bind : MBind result := fun A B k r => rbind r k.

(** ** docker/gpu_detector.py *)

Module GpuDetector.

(** The part of the torch runtime that [detect_gpu] reads.
    [torch.cuda.is_available()] is total: torch reports a missing build,
    a missing driver or a failing device query as [False] and does not
    raise.  The other three queries initialise CUDA and may raise. *)
Record torch_cuda : Type := TorchCuda {
  is_available : bool;
  device_count : result Z;
  get_device_name : Z -> result string;
  total_memory : Z -> result Z   (* get_device_properties(i).total_memory, bytes *)
}.

(** [detect_gpu()], lines 11-27. *)
Definition detect_gpu (torch : torch_cuda) : result (gmap string value) :=
  let gpu_available := is_available torch in
  gpu_count ← (if gpu_available then device_count torch else Ok 0);
  let config : gmap string value :=
    <["download_weights" := VBool gpu_available]>
    (<["device" := VStr (if gpu_available then "cuda" else "cpu")]>
    (<["gpu_count" := VInt gpu_count]>
    (<["gpu_available" := VBool gpu_available]> ∅))) in
  if gpu_available then
    name ← get_device_name torch 0;
    mem ← total_memory torch 0;
    Ok (<["gpu_memory" := VFloat (mem # 1073741824)]>
        (<["gpu_name" := VStr name]> config))
  else Ok config.

(** [str(v)] inside an f-string, and [f"{v:.1f}"]. *)
Definition str_piece (v : value) : piece :=
  match v with
  | VBool b => PStr (if b then "True" else "False")
  | VInt z => PInt z
  | VStr s => PStr s
  | VFloat q => PReal q
  end.

Definition fixed1_piece (v : value) : result piece :=
  match v with
  | VBool b => Ok (PFixed1 ((if b then 1 else 0) # 1))
  | VInt z => Ok (PFixed1 (z # 1))
  | VFloat q => Ok (PFixed1 q)
  | VStr _ => Raise (Exn ValueError "Unknown format code 'f' for object of type 'str'")
  end.

(** Truth value of a dict entry in an [if]. *)
Definition truthy (v : value) : bool :=
  match v with
  | VBool b => b
  | VInt z => negb (z =? 0)
  | VStr s => negb (String.eqb s EmptyString)
  | VFloat q => negb (Qeq_bool q 0)
  end.

(** [config[k]] *)
Definition getitem (config : gmap string value) (k : string) : result value :=
  match config !! k with
  | Some v => Ok v
  | None => Raise (Exn KeyError k)
  end.

(** [print_config(config)], lines 29-44: the lines it prints. *)
Definition print_config (config : gmap string value) : result (list message) :=
  avail ← getitem config "gpu_available";
  device ← getitem config "device";
  count ← getitem config "gpu_count";
  let out := [[PStr "🔍 GPU Detection Results:"];
              [PStr "   GPU Available: "; str_piece avail];
              [PStr "   Device: "; str_piece device];
              [PStr "   GPU Count: "; str_piece count]] in
  avail ← getitem config "gpu_available";
  out ← (if truthy avail then
           name ← getitem config "gpu_name";
           mem ← getitem config "gpu_memory";
           mem ← fixed1_piece mem;
           Ok (out ++ [[PStr "   GPU Name: "; str_piece name];
                       [PStr "   GPU Memory: "; mem; PStr " GB"];
                       [PStr "   🚀 Running in GPU-accelerated mode"]])
         else Ok (out ++ [[PStr "   💻 Running in CPU-only mode"]]));
  dl ← getitem config "download_weights";
  Ok (out ++ [[PStr "   Auto-download weights: "; str_piece dl]; []]).

(** [str(v).lower()] for the two flags, and the check [os.environ] makes
    on the value it is given. *)
Definition str_lower (v : value) : result string :=
  match v with
  | VBool b => Ok (str_lower_bool b)
  | VInt z => Ok (pretty z)
  | _ => Raise (Exn TypeError "str.lower")
  end.

Definition environ_value (v : value) : result string :=
  match v with
  | VStr s => Ok s
  | _ => Raise (Exn TypeError "str expected")
  end.

(** [main()], lines 46-57: what it prints, the environment it leaves and
    its exit code. *)
Definition main (torch : torch_cuda) (environ : gmap string string)
    : result (list message * gmap string string * Z) :=
  config ← detect_gpu torch;
  out ← print_config config;
  device ← getitem config "device";
  device ← environ_value device;
  let environ := <["PIPELINE_DEVICE" := device]> environ in
  avail ← getitem config "gpu_available";
  avail ← str_lower avail;
  let environ := <["PIPELINE_GPU_AVAILABLE" := avail]> environ in
  dl ← getitem config "download_weights";
  dl ← str_lower dl;
  let environ := <["PIPELINE_DOWNLOAD_WEIGHTS" := dl]> environ in
  avail ← getitem config "gpu_available";
  Ok (out, environ, if truthy avail then 0 else 1).

(** The conservative CPU profile. *)
Definition cpu_profile : gmap string value :=
  <["download_weights" := VBool false]>
  (<["device" := VStr "cpu"]>
  (<["gpu_count" := VInt 0]>
  (<["gpu_available" := VBool false]> ∅))).

(** Internal consistency of a profile, field by field. *)
Definition consistent (config : gmap string value) : Prop :=
  exists (avail : bool) (count : Z) (device : string),
    config !! "gpu_available" = Some (VBool avail) /\
    config !! "gpu_count" = Some (VInt count) /\
    config !! "device" = Some (VStr device) /\
    config !! "download_weights" = Some (VBool avail) /\
    (device = "cuda" <-> avail = true) /\
    (device = "cpu" <-> avail = false) /\
    (avail = false -> count = 0) /\
    (is_Some (config !! "gpu_name") <-> avail = true) /\
    (is_Some (config !! "gpu_memory") <-> avail = true).

(** A runtime without accelerator in which every other query fails. *)
Definition no_gpu : torch_cuda :=
  {| is_available := false;
     device_count := Raise (Exn RuntimeError "no CUDA driver");
     get_device_name := fun _ => Raise (Exn RuntimeError "no CUDA driver");
     total_memory := fun _ => Raise (Exn RuntimeError "no CUDA driver") |}.

(** An accelerator is reported, and its name cannot be read. *)
Definition nameless_gpu : torch_cuda :=
  {| is_available := true;
     device_count := Ok 1;
     get_device_name := fun _ => Raise (Exn RuntimeError "CUDA error: unknown error");
     total_memory := fun _ => Ok 16106127360 |}.

Definition one_gpu : torch_cuda :=
  {| is_available := true;
     device_count := Ok 1;
     get_device_name := fun _ => Ok "Tesla T4";
     total_memory := fun _ => Ok 16106127360 |}.

End GpuDetector.


(** ** The outside world *)

Module Sys.

(** [subprocess.CompletedProcess] with captured text output. *)
Record completed_process : Type := Completed {
  returncode : Z;
  stdout : string;
  stderr : string
}.

(** Parsed JSON, as [json.loads] returns it. *)
#[local] Unset Elimination Schemes.
Inductive json : Type :=
| JNull
| JBool (b : bool)
| JInt (z : Z)
| JReal (q : Q)
| JStr (s : string)
| JList (l : list json)
| JDict (l : list (string * json)).
#[local] Set Elimination Schemes.

(** numpy arrays of dtype uint8: [rows] of pixels, one channel or three. *)
Inductive image : Type :=
| Gray (rows : list (list Z))
| Color (rows : list (list (Z * Z * Z))).

(** What the program does to the world, in program order, with the
    outcome where later code branches on it. *)
Inductive event : Type :=
| EMakedirs (path : string)
| ERun (cmd : list string) (r : result completed_process)
| EListBuckets (r : result unit)
| EDownload (bucket key filename : string) (r : result unit)
| EUpload (filename bucket key : string) (r : result unit)
| EHeadObject (bucket key : string) (r : result unit)
| EImwrite (path : string) (img : image)
| EPrint (m : message).

(** The operating system, the child processes and the object store as the
    code sees them.  Operations that change the world return the new one;
    [os_listdir], [os_path_exists], [os_path_getsize] and [os_walk] only
    read it. *)
Class World (W : Type) : Type := {
  os_makedirs : string -> W -> result unit * W;     (* exist_ok=True *)
  os_listdir : string -> W -> result (list string);
  os_path_exists : string -> W -> bool;
  os_path_getsize : string -> W -> result Z;
  os_walk : string -> W -> list (string * list string * list string);
  subprocess_run : list string -> W -> result completed_process * W;
  s3_list_buckets : W -> result unit * W;
  s3_download_file : string -> string -> string -> W -> result unit * W;
  s3_upload_file : string -> string -> string -> W -> result unit * W;
  s3_head_object : string -> string -> W -> result unit * W;
  cv2_imwrite : string -> image -> W -> W
}.

(** Pure functions of the Python library whose definition is outside the
    repository and whose result depends on the platform or on text this
    model does not parse. *)
Class PyLib : Type := {
  os_path_join : string -> string -> string;
  os_path_relpath : string -> string -> string;
  json_loads : string -> result json;
  py_eval : string -> result Q;
  py_float : json -> result Q;
  py_int : json -> result Z
}.

(** Program state: the world and the log of external calls so far. *)
Record state (W : Type) : Type := State { world : W; log : list event }.
Arguments State {W} world log.
Arguments world {W} s.
Arguments log {W} s.

(** A Python statement sequence: it ends with a value or a raised
    exception, and in both cases leaves a state behind. *)
Definition M (W A : Type) : Type := state W -> result A * state W.

Definition ret {W A} (a : A) : M W A := fun s => (Ok a, s).

Definition bind {W A B} (m : M W A) (k : A -> M W B) : M W B :=
  fun s => match m s with
           | (Ok a, s') => k a s'
           | (Raise e, s') => (Raise e, s')
           end.

Definition raise {W A} (e : exn) : M W A := fun s => (Raise e, s).

(** [try: body except Exception as e: handler(e)] *)
Definition try_except {W A} (body : M W A) (handler : exn -> M W A) : M W A :=
  fun s => match body s with
           | (Ok a, s') => (Ok a, s')
           | (Raise e, s') => handler e s'
           end.

(** [try: body except (C1, C2, ...): handler] *)
Definition try_except_only {W A} (classes : list exn_class)
    (body : M W A) (handler : exn -> M W A) : M W A :=
  fun s => match body s with
           | (Ok a, s') => (Ok a, s')
           | (Raise e, s') =>
               if existsb (exn_class_eqb (exn_cls e)) classes
               then handler e s' else (Raise e, s')
           end.

(** Lifting of a pure computation that may raise. *)
Definition lift {W A} (r : result A) : M W A := fun s => (r, s).

Definition emit {W} (e : event) : M W unit :=
  fun s => (Ok tt, State (world s) (log s ++ [e])).

Definition print {W} (m : message) : M W unit := emit (EPrint m).

(** A read of the world. *)
Definition query {W A} (f : W -> A) : M W A := fun s => (Ok (f (world s)), s).

(** A read of the world that may raise. *)
Definition query_r {W A} (f : W -> result A) : M W A := fun s => (f (world s), s).

(** A call that changes the world; [ev] is what the log keeps of it. *)
Definition perform {W A} (f : W -> result A * W) (ev : result A -> event) : M W A :=
  fun s => let '(r, w') := f (world s) in
           (r, State w' (log s ++ [ev r])).

(** [os.makedirs(path, exist_ok=True)]; the empty path is refused before
    the file system is touched. *)
Definition makedirs {W} `{World W} (path : string) : M W unit :=
  match path with
  | EmptyString => raise (Exn OSError "[Errno 2] No such file or directory: ''")
  | _ => bind (emit (EMakedirs path))
           (fun _ s => let '(r, w') := os_makedirs path (world s) in
                       (r, State w' (log s)))
  end.

Definition imwrite {W} `{World W} (path : string) (img : image) : M W unit :=
  fun s => (Ok tt, State (cv2_imwrite path img (world s)) (log s ++ [EImwrite path img])).

(** [os.path.dirname] of posixpath: the text before the last slash, with
    trailing slashes removed unless it consists of slashes only. *)
Fixpoint rstrip_slash_rev (r : string) : string :=
  match r with
  | String "/" r' => rstrip_slash_rev r'
  | _ => r
  end.

Fixpoint drop_to_slash_rev (r : string) : string :=
  match r with
  | EmptyString => EmptyString
  | String "/" _ => r
  | String _ r' => drop_to_slash_rev r'
  end.

Definition os_path_dirname (p : string) : string :=
  let head_rev := drop_to_slash_rev (str_rev_onto p EmptyString) in
  match rstrip_slash_rev head_rev with
  | EmptyString => str_rev_onto head_rev EmptyString
  | stripped => str_rev_onto stripped EmptyString
  end.

(** [for x in xs: body(x)] *)
Fixpoint for_each {W A} (xs : list A) (body : A -> M W unit) : M W unit :=
  match xs with
  | [] => ret tt
  | x :: xs' => bind (body x) (fun _ => for_each xs' body)
  end.

(** [for x in xs: acc = body(acc, x)] for a loop that updates one local. *)
Fixpoint for_fold {W A B} (xs : list A) (acc : B) (body : B -> A -> M W B) : M W B :=
  match xs with
  | [] => ret acc
  | x :: xs' => bind (body acc x) (fun acc' => for_fold xs' acc' body)
  end.

(** [m], whenever it returns, returns [a] and has added exactly [evs] to
    the log. *)
Definition emits {W A} (m : M W A) (evs : list event) (a : A) : Prop :=
  forall s r s', m s = (Ok r, s') -> r = a /\ log s' = log s ++ evs.

End Sys.

Import Sys.

#[global] Instance M_ret {W} : MRet (M W) := fun A => ret.
#[global] Instance M_bind {W} : MBind (M W) := fun A B k m => bind m k.

(** ** docker/s3_handler.py *)

Module S3Handler.

(** [parse_s3_url(s3_url)], lines 31-46. *)
Definition parse_s3_url (s3_url : string) : result (string * string) :=
  if negb (startswith s3_url "s3://") then
    Raise (Exn ValueError "S3 URL must start with 's3://'")
  else
    let path := str_drop 5 s3_url in
    let parts := split_once "/" path in
    if (length parts <? 2)%nat then
      Raise (Exn ValueError "S3 URL must include bucket and key: s3://bucket/key")
    else
      match parts !! 0%nat, parts !! 1%nat with
      | Some bucket, Some key => Ok (bucket, key)
      | _, _ => Raise (Exn RuntimeError "list index out of range")
      end.

(** The handler object: its one field that the methods read.  The client
    object itself lives in the world. *)
Record handler : Type := Handler { aws_available : bool }.

Section Methods.
Context {W : Type} `{World W} `{PyLib}.

(** [__init__], lines 15-29.  [boto3.client('s3')] and the credential
    probe [list_buckets()] are one call on the world. *)
Definition init : M W handler :=
  try_except_only [NoCredentialsError; ClientError]
    (_ ← perform s3_list_buckets EListBuckets;
     _ ← print [PStr "✅ AWS credentials configured successfully"];
     mret (Handler true))
    (fun e =>
     _ ← print [PStr "⚠️  AWS credentials not configured or invalid"];
     _ ← print [PStr "   Set AWS_ACCESS_KEY_ID and AWS_SECRET_ACCESS_KEY environment variables"];
     _ ← print [PStr "   Or use IAM roles/instance profiles on EC2"];
     mret (Handler false)).

(** [download_file(s3_url, local_path)], lines 48-76. *)
Definition download_file (self : handler) (s3_url local_path : string) : M W bool :=
  if negb (aws_available self) then
    _ ← print [PStr "❌ Cannot download from S3 - AWS not configured"];
    mret false
  else
    try_except
      ('(bucket, key) ← lift (parse_s3_url s3_url);
       _ ← makedirs (os_path_dirname local_path);
       _ ← print [PStr "📥 Downloading from S3: "; PStr s3_url];
       _ ← print [PStr "   Target: "; PStr local_path];
       _ ← perform (s3_download_file bucket key local_path)
                   (EDownload bucket key local_path);
       found ← query (os_path_exists local_path);
       if found : bool then
         file_size ← query_r (os_path_getsize local_path);
         _ ← print [PStr "✅ Downloaded successfully (";
                    PFixed1 (file_size # 1048576); PStr " MB)"];
         mret true
       else
         _ ← print [PStr "❌ Download failed - file not found locally"];
         mret false)
      (fun e =>
       _ ← print [PStr "❌ S3 download failed: "; PExn e];
       mret false).

(** [upload_file(local_path, s3_url)], lines 78-101. *)
Definition upload_file (self : handler) (local_path s3_url : string) : M W bool :=
  if negb (aws_available self) then
    _ ← print [PStr "❌ Cannot upload to S3 - AWS not configured"];
    mret false
  else
    try_except
      ('(bucket, key) ← lift (parse_s3_url s3_url);
       found ← query (os_path_exists local_path);
       if negb found then
         _ ← print [PStr "❌ Local file not found: "; PStr local_path];
         mret false
       else
         file_size ← query_r (os_path_getsize local_path);
         _ ← print [PStr "📤 Uploading to S3: "; PStr s3_url];
         _ ← print [PStr "   Source: "; PStr local_path; PStr " (";
                    PFixed1 (file_size # 1048576); PStr " MB)"];
         _ ← perform (s3_upload_file local_path bucket key)
                     (EUpload local_path bucket key);
         _ ← print [PStr "✅ Upload completed successfully"];
         mret true)
      (fun e =>
       _ ← print [PStr "❌ S3 upload failed: "; PExn e];
       mret false).

(** The body of the inner loop of [upload_directory], lines 113-124:
    one file of the walk, with the counter before and after. *)
Definition upload_one (local_dir bucket base_key root : string)
    (uploaded_files : Z) (file : string) : M W Z :=
  let local_file_path := os_path_join root file in
  let relative_path := os_path_relpath local_file_path local_dir in
  let s3_key := replace_char "\" "/" (base_key +:+ "/" +:+ relative_path) in
  try_except
    (_ ← perform (s3_upload_file local_file_path bucket s3_key)
                 (EUpload local_file_path bucket s3_key);
     let uploaded_files := uploaded_files + 1 in
     _ ← print [PStr "   📤 Uploaded: "; PStr relative_path];
     mret uploaded_files)
    (fun e =>
     _ ← print [PStr "   ❌ Failed to upload "; PStr relative_path; PStr ": "; PExn e];
     mret uploaded_files).

(** [upload_directory(local_dir, s3_base_url)], lines 103-133. *)
Definition upload_directory (self : handler) (local_dir s3_base_url : string) : M W bool :=
  if negb (aws_available self) then
    _ ← print [PStr "❌ Cannot upload to S3 - AWS not configured"];
    mret false
  else
    try_except
      ('(bucket, base_key) ← lift (parse_s3_url s3_base_url);
       walk ← query (os_walk local_dir);
       uploaded_files ←
         for_fold walk 0 (fun uploaded_files '(root, dirs, files) =>
           for_fold files uploaded_files
             (upload_one local_dir bucket base_key root));
       _ ← print [PStr "✅ Directory upload completed: "; PInt uploaded_files;
                  PStr " files"];
       mret (0 <? uploaded_files))
      (fun e =>
       _ ← print [PStr "❌ Directory upload failed: "; PExn e];
       mret false).

(** [check_file_exists(s3_url)], lines 135-145. *)
Definition check_file_exists (self : handler) (s3_url : string) : M W bool :=
  if negb (aws_available self) then mret false
  else
    try_except_only [ClientError]
      ('(bucket, key) ← lift (parse_s3_url s3_url);
       _ ← perform (s3_head_object bucket key) (EHeadObject bucket key);
       mret true)
      (fun _ => mret false).

End Methods.

End S3Handler.

(** ** Arrays and the drawing primitive the mask code uses *)

Module Cv.

(** [np.zeros((rows, cols), dtype=np.uint8)] *)
Definition np_zeros (rows cols : Z) : list (list Z) :=
  replicate (Z.to_nat rows) (replicate (Z.to_nat cols) 0).

(** [np.full((rows, cols, 3), v, dtype=np.uint8)] *)
Definition np_full3 (rows cols : Z) (v : Z) : list (list (Z * Z * Z)) :=
  replicate (Z.to_nat rows) (replicate (Z.to_nat cols) (v, v, v)).

Definition between (a b x : Z) : bool :=
  (Z.min a b <=? x) && (x <=? Z.max a b).

(** Painting the pixels a shape covers.  The array keeps its shape: a
    pixel of the shape that lies outside the array is not drawn. *)
Definition paint {A} (covers : Z -> Z -> bool) (color : A)
    (img : list (list A)) : list (list A) :=
  imap (fun y row =>
          imap (fun x v => if covers (Z.of_nat x) (Z.of_nat y) then color else v) row)
       img.

(** [cv2.rectangle(img, pt1, pt2, color, -1)]: the filled rectangle whose
    two opposite corners are [pt1] and [pt2]; both corners, and so the
    column of [x2] and the row of [y2], belong to it. *)
Definition cv2_rectangle {A} (img : list (list A)) (pt1 pt2 : Z * Z) (color : A)
    : list (list A) :=
  paint (fun x y => between (fst pt1) (fst pt2) x && between (snd pt1) (snd pt2) y)
        color img.

(** [img[y, x]] for indices inside the array *)
Definition pixel {A} (img : list (list A)) (x y : Z) : option A :=
  if (x <? 0) || (y <? 0) then None
  else row ← img !! Z.to_nat y; row !! Z.to_nat x.

(** [img.shape[:2]] of an array whose rows have equal length *)
Definition has_shape {A} (img : list (list A)) (rows cols : Z) : Prop :=
  Z.of_nat (length img) = rows /\
  Forall (fun row => Z.of_nat (length row) = cols) img.

(** A colour whose three channels fit a uint8 as they are. *)
Definition valid_pixel (p : Z * Z * Z) : Prop :=
  let '(c1, c2, c3) := p in
  (0 <= c1 <= 255) /\ (0 <= c2 <= 255) /\ (0 <= c3 <= 255).

(** Value stored in a uint8 array element; numpy keeps the low eight bits. *)
Definition uint8 (v : Z) : Z := v mod 256.

(** The rasteriser of OpenCV for text and circles, whose code is outside
    the repository: which pixels a shape covers, and the size of a text. *)
Class Raster : Type := {
  text_covers : string -> Z * Z -> Q -> Z -> Z -> Z -> bool;
      (* text, origin, font scale, thickness, then the pixel x y;
         the font is always FONT_HERSHEY_SIMPLEX *)
  circle_covers : Z * Z -> Z -> Z -> Z -> bool;
      (* centre, radius, then the pixel x y *)
  getTextSize : string -> Q -> Z -> Z * Z
}.

(** [cv2.putText(img, text, org, FONT_HERSHEY_SIMPLEX, scale, color, thickness)] *)
Definition cv2_putText `{Raster} {A} (img : list (list A)) (text : string)
    (org : Z * Z) (scale : Q) (color : A) (thickness : Z) : list (list A) :=
  paint (text_covers text org scale thickness) color img.

(** [cv2.circle(img, center, radius, color, -1)] *)
Definition cv2_circle `{Raster} {A} (img : list (list A)) (center : Z * Z)
    (radius : Z) (color : A) : list (list A) :=
  paint (circle_covers center radius) color img.

End Cv.

Import Cv.

(** ** docker/video_processor.py *)

Module VideoProcessor.

Record video_info : Type := VideoInfo {
  width : Z;
  height : Z;
  fps : Q;
  duration : Q
}.

(** [d[k]] on parsed JSON *)
Definition json_get (k : string) (j : json) : result json :=
  match j with
  | JDict items =>
      match List.find (fun kv => String.eqb (fst kv) k) items with
      | Some kv => Ok (snd kv)
      | None => Raise (Exn KeyError k)
      end
  | _ => Raise (Exn TypeError "indices must be integers")
  end.

(** Iterating over a JSON value in a [for] loop *)
Definition json_iter (j : json) : result (list json) :=
  match j with
  | JList l => Ok l
  | JDict items => Ok (map (fun kv => JStr (fst kv)) items)
  | _ => Raise (Exn TypeError "object is not iterable")
  end.

Definition json_is_str (j : json) (s : string) : bool :=
  match j with
  | JStr t => String.eqb t s
  | _ => false
  end.

(** The loop of lines 126-129: the first stream whose codec_type is
    'video'. *)
Fixpoint find_video_stream (streams : list json) : result (option json) :=
  match streams with
  | [] => Ok None
  | stream :: rest =>
      codec_type ← json_get "codec_type" stream;
      if json_is_str codec_type "video" then Ok (Some stream)
      else find_video_stream rest
  end.

Definition png_files (names : list string) : list string :=
  filter (fun f => Is_true (endswith f ".png")) names.

(** [subtitle_region] when the caller gives none: "bottom 20% of frame". *)
Definition default_subtitle_region : Z * Z * Z * Z := (0, 205, 256, 256).

(** Lines 163-165 (and lines 79-81 of docker/lama_zits_pipeline.py with
    [frame_size] in place of (256, 256)): the mask of one frame. *)
Definition subtitle_mask (frame_size : Z * Z) (subtitle_region : Z * Z * Z * Z)
    : list (list Z) :=
  let mask := np_zeros (fst frame_size) (snd frame_size) in
  let '(x1, y1, x2, y2) := subtitle_region in
  cv2_rectangle mask (x1, y1) (x2, y2) 255.

(** The region (x1, y1, x2, y2) as its bounds x2 <= width, y2 <= height
    describe it: columns x1 to x2 - 1 and rows y1 to y2 - 1. *)
Definition in_region (region : Z * Z * Z * Z) (x y : Z) : bool :=
  let '(x1, y1, x2, y2) := region in
  (x1 <=? x) && (x <? x2) && (y1 <=? y) && (y <? y2).

(** The pixels [cv2.rectangle] fills for the corner points (x1, y1) and
    (x2, y2) given in order: columns x1 to x2 and rows y1 to y2, the
    column of x2 and the row of y2 included. *)
Definition filled (region : Z * Z * Z * Z) (x y : Z) : bool :=
  let '(x1, y1, x2, y2) := region in
  (x1 <=? x) && (x <=? x2) && (y1 <=? y) && (y <=? y2).

Section Methods.
Context {W : Type} `{World W} `{PyLib}.

(** [get_video_info(video_path)], lines 108-143. *)
Definition get_video_info (video_path : string) : M W (option video_info) :=
  try_except
    (let cmd := ["ffprobe"; "-v"; "quiet"; "-print_format"; "json";
                 "-show_format"; "-show_streams"; video_path] in
     result ← perform (subprocess_run cmd) (ERun cmd);
     if returncode result =? 0 then
       data ← lift (json_loads (stdout result));
       video_stream ← lift (streams ← json_get "streams" data;
                             streams ← json_iter streams;
                             find_video_stream streams);
       match video_stream with
       | Some video_stream =>
           width ← lift (v ← json_get "width" video_stream; py_int v);
           height ← lift (v ← json_get "height" video_stream; py_int v);
           fps ← lift (r ← json_get "r_frame_rate" video_stream;
                       match r with
                       | JStr text => py_eval text
                       | _ => Raise (Exn TypeError "eval() arg 1 must be a string")
                       end);
           duration ← lift (format ← json_get "format" data;
                           v ← json_get "duration" format;
                           py_float v);
           mret (Some (VideoInfo width height fps duration))
       | None => mret None
       end
     else mret None)
    (fun e =>
     _ ← print [PStr "❌ Error getting video info: "; PExn e];
     mret None).

(** The FFmpeg command of [extract_frames], lines 36-46. *)
Definition extract_cmd (video_path output_dir : string) (target_fps : option Z)
    : list string :=
  let cmd := ["ffmpeg"; "-i"; video_path;
              "-vf"; "scale=256:256";
              "-q:v"; "2";
              output_dir +:+ "/frame_%05d.png"] in
  match target_fps with
  | Some r => if r =? 0 then cmd
              else list_insert_at (-1) (str_int r) (list_insert_at (-2) "-r" cmd)
  | None => cmd
  end.

(** [extract_frames(video_path, output_dir, target_fps=None)], lines 19-62. *)
Definition extract_frames (video_path output_dir : string) (target_fps : option Z)
    : M W bool :=
  try_except
    (_ ← makedirs output_dir;
     video_info ← get_video_info video_path;
     match video_info with
     | None => mret false
     | Some video_info =>
         _ ← print [PStr "🎬 Extracting frames from: "; PStr video_path];
         _ ← print [PStr "   Resolution: "; PInt (width video_info); PStr "x";
                    PInt (height video_info)];
         _ ← print [PStr "   FPS: "; PReal (fps video_info)];
         _ ← print [PStr "   Duration: "; PFixed1 (duration video_info); PStr "s"];
         let cmd := extract_cmd video_path output_dir target_fps in
         result ← perform (subprocess_run cmd) (ERun cmd);
         if returncode result =? 0 then
           names ← query_r (os_listdir output_dir);
           let frame_count := Z.of_nat (length (png_files names)) in
           _ ← print [PStr "✅ Extracted "; PInt frame_count; PStr " frames successfully"];
           mret true
         else
           _ ← print [PStr "❌ Frame extraction failed: "; PStr (stderr result)];
           mret false
     end)
    (fun e =>
     _ ← print [PStr "❌ Frame extraction error: "; PExn e];
     mret false).

(** The FFmpeg command of [create_video], lines 78-86. *)
Definition create_cmd (frames_dir output_path : string) (fps : Z) (codec : string)
    : list string :=
  ["ffmpeg"; "-y";
   "-framerate"; str_int fps;
   "-i"; frames_dir +:+ "/frame_%05d.png";
   "-c:v"; codec;
   "-pix_fmt"; "yuv420p";
   "-crf"; "18";
   output_path].

(** [create_video(frames_dir, output_path, fps=30, codec='libx264')],
    lines 64-106. *)
Definition create_video (frames_dir output_path : string) (fps : Z) (codec : string)
    : M W bool :=
  try_except
    (names ← query_r (os_listdir frames_dir);
     let frame_files := sorted (png_files names) in
     match frame_files with
     | [] =>
         _ ← print [PStr "❌ No frames found in "; PStr frames_dir];
         mret false
     | _ =>
         _ ← print [PStr "🎞️  Creating video from ";
                    PInt (Z.of_nat (length frame_files)); PStr " frames..."];
         _ ← print [PStr "   Output: "; PStr output_path];
         _ ← print [PStr "   FPS: "; PInt fps];
         let cmd := create_cmd frames_dir output_path fps codec in
         result ← perform (subprocess_run cmd) (ERun cmd);
         if returncode result =? 0 then
           found ← query (os_path_exists output_path);
           if found : bool then
             file_size ← query_r (os_path_getsize output_path);
             _ ← print [PStr "✅ Video created successfully (";
                        PFixed1 (file_size # 1048576); PStr " MB)"];
             mret true
           else
             _ ← print [PStr "❌ Video creation failed - output file not found"];
             mret false
         else
           _ ← print [PStr "❌ Video creation failed: "; PStr (stderr result)];
           mret false
     end)
    (fun e =>
     _ ← print [PStr "❌ Video creation error: "; PExn e];
     mret false).

(** [generate_subtitle_masks(frames_dir, masks_dir, subtitle_region=None)],
    lines 145-176. *)
Definition generate_subtitle_masks (frames_dir masks_dir : string)
    (subtitle_region : option (Z * Z * Z * Z)) : M W bool :=
  try_except
    (let subtitle_region := default default_subtitle_region subtitle_region in
     names ← query_r (os_listdir frames_dir);
     let frame_files := sorted (png_files names) in
     match frame_files with
     | [] =>
         _ ← print [PStr "❌ No frames found in "; PStr frames_dir];
         mret false
     | _ =>
         _ ← makedirs masks_dir;
         _ ← print [PStr "🎭 Generating subtitle masks for ";
                    PInt (Z.of_nat (length frame_files)); PStr " frames..."];
         _ ← for_each frame_files (fun frame_file =>
                let mask := subtitle_mask (256, 256) subtitle_region in
                let mask_file := replace frame_file "frame_" "mask_" in
                imwrite (masks_dir +:+ "/" +:+ mask_file) (Gray mask));
         _ ← print [PStr "✅ Generated "; PInt (Z.of_nat (length frame_files));
                    PStr " subtitle masks"];
         mret true
     end)
    (fun e =>
     _ ← print [PStr "❌ Mask generation error: "; PExn e];
     mret false).

(** [repr] of what [get_video_info] returns, inside an f-string. *)
Definition info_pieces (info : option video_info) : list piece :=
  match info with
  | None => [PStr "None"]
  | Some i => [PStr "{'width': "; PInt (width i); PStr ", 'height': "; PInt (height i);
               PStr ", 'fps': "; PReal (fps i); PStr ", 'duration': ";
               PReal (duration i); PStr "}"]
  end.

(** [main()], lines 178-203, with [sys.argv] as argument. *)
Definition main (argv : list string) : M W unit :=
  if (2 <? length argv)%nat then
    match argv !! 1%nat, argv !! 2%nat with
    | Some command, Some arg2 =>
        if String.eqb command "extract" then
          let output_dir :=
            if (3 <? length argv)%nat then default EmptyString (argv !! 3%nat)
            else "extracted_frames" in
          _ ← extract_frames arg2 output_dir None;
          mret tt
        else if String.eqb command "create" then
          let output_path :=
            if (3 <? length argv)%nat then default EmptyString (argv !! 3%nat)
            else "output.mp4" in
          _ ← create_video arg2 output_path 30 "libx264";
          mret tt
        else if String.eqb command "info" then
          info ← get_video_info arg2;
          print (PStr "Video info: " :: info_pieces info)
        else mret tt
    | _, _ => mret tt
    end
  else
    _ ← print [PStr "Usage:"];
    _ ← print [PStr "  python video_processor.py extract <video_path> [output_dir]"];
    _ ← print [PStr "  python video_processor.py create <frames_dir> [output_path]"];
    print [PStr "  python video_processor.py info <video_path>"].

End Methods.

End VideoProcessor.

(** ** The synthetic corpus generators *)

Module Pipeline.

(** The [config] dict of both generators.  [output_dirs] holds the values
    of 'lama_output_dir' and 'zits_output_dir', keys that only the
    notebook variant has. *)
Record config : Type := Config {
  input_dir : string;
  mask_dir : string;
  output_dirs : list string;
  frame_count : Z;
  frame_size : Z * Z;
  subtitle_region : Z * Z * Z * Z
}.

(** Python floats: IEEE doubles with the operations the generator uses.
    [int_of] is [int(x)], truncation towards zero. *)
Class Floats (F : Type) : Type := {
  of_int : Z -> F;
  fadd : F -> F -> F;
  fmul : F -> F -> F;
  fdiv : F -> F -> F;
  np_sin : F -> F;
  np_cos : F -> F;
  np_pi : F;
  int_of : F -> Z
}.

(** [min(255, max(0, v))] *)
Definition clamp255 (v : Z) : Z := Z.min 255 (Z.max 0 v).

(** [mask] of lines 79-81 (docker) and 54-56 (notebook). *)
Definition mask_of (cfg : config) : list (list Z) :=
  VideoProcessor.subtitle_mask (frame_size cfg) (subtitle_region cfg).

(** [range(n)] *)
Definition range (n : Z) : list Z := seqZ 0 n.

Section Generators.
Context {W : Type} `{World W} `{Raster} {F : Type} `{Floats F}.

(** *** docker/lama_zits_pipeline.py *)

Definition docker_config : config :=
  {| input_dir := "/data/input_video";
     mask_dir := "/data/masks";
     output_dirs := [];
     frame_count := 30;
     frame_size := (256, 256);
     subtitle_region := (0, 205, 256, 256) |}.

(** Lines 37-44: the animated gradient, one pixel. *)
Definition gradient_pixel (phase : F) (x y : Z) : Z * Z * Z :=
  let r := int_of (fadd (of_int 128)
             (fmul (of_int 127) (np_sin (fadd phase (fdiv (of_int x) (of_int 30)))))) in
  let g := int_of (fadd (of_int 128)
             (fmul (of_int 127)
                (np_sin (fadd (fadd phase (fdiv (of_int y) (of_int 30)))
                              (fdiv np_pi (of_int 3)))))) in
  let b := int_of (fadd (of_int 128)
             (fmul (of_int 127)
                (np_sin (fadd (fadd phase (fdiv (of_int (x + y)) (of_int 40)))
                              (fdiv (fmul (of_int 2) np_pi) (of_int 3)))))) in
  (clamp255 r, clamp255 g, clamp255 b).

Definition subtitle_texts (i : Z) : list string :=
  ["This is a sample subtitle";
   "Subtitle text to remove";
   "Burnt-in subtitle example";
   "Frame " +:+ str_int (i + 1) +:+ " subtitle";
   "AI will remove this text"].

(** Lines 34-73: frame [i] before it is saved. *)
Definition synthetic_frame (cfg : config) (i : Z) : list (list (Z * Z * Z)) :=
  let img := np_full3 (fst (frame_size cfg)) (snd (frame_size cfg)) 255 in
  let phase := fmul (fmul (fdiv (of_int i) (of_int (frame_count cfg))) (of_int 2)) np_pi in
  let img := imap (fun y row =>
                     imap (fun x _ => gradient_pixel phase (Z.of_nat x) (Z.of_nat y)) row)
                  img in
  let img := cv2_putText img ("Test Video Frame " +:+ zero_padded 2 (i + 1)) (20, 50)
                         (6 # 10) (255, 255, 255) 2 in
  let img := cv2_putText img "Sample Content" (20, 80) (5 # 10) (200, 200, 200) 1 in
  let center_x := int_of (fadd (of_int 128)
                    (fmul (of_int 50) (np_sin (fdiv (of_int i) (of_int 5))))) in
  let center_y := int_of (fadd (of_int 120)
                    (fmul (of_int 30) (np_cos (fdiv (of_int i) (of_int 3))))) in
  let img := cv2_circle img (center_x, center_y) 15 (0, 255, 255) in
  let texts := subtitle_texts i in
  let subtitle := default EmptyString (texts !! Z.to_nat (i mod Z.of_nat (length texts))) in
  let text_size := getTextSize subtitle (5 # 10) 2 in
  let img := cv2_rectangle img (10, 215) (fst text_size + 20, 245) (0, 0, 0) in
  cv2_putText img subtitle (15, 235) (5 # 10) (255, 255, 255) 2.

(** The loop body of lines 32-84 *)
Definition synthetic_step (cfg : config) (i : Z) : M W unit :=
  let img := synthetic_frame cfg i in
  _ ← imwrite (input_dir cfg +:+ "/frame_" +:+ zero_padded 5 (i + 1) +:+ ".png")
              (Color img);
  let mask := mask_of cfg in
  imwrite (mask_dir cfg +:+ "/mask_" +:+ zero_padded 5 (i + 1) +:+ ".png") (Gray mask).

(** [generate_synthetic_data()], lines 12-90, with the dict of lines 16-22
    as argument. *)
Definition generate_synthetic_data_with (cfg : config) : M W config :=
  _ ← for_each [input_dir cfg; mask_dir cfg] (fun dir_path =>
         _ ← makedirs dir_path;
         print [PStr "📁 Created directory: "; PStr dir_path]);
  _ ← print [PNewline; PStr "🎬 Generating "; PInt (frame_count cfg);
             PStr " synthetic test frames..."];
  _ ← for_each (range (frame_count cfg)) (synthetic_step cfg);
  _ ← print [PStr "✅ Generated "; PInt (frame_count cfg);
             PStr " synthetic frames and masks"];
  _ ← print [PStr "   📁 Frames: "; PStr (input_dir cfg)];
  _ ← print [PStr "   🎭 Masks: "; PStr (mask_dir cfg)];
  mret cfg.

Definition generate_synthetic_data : M W config :=
  generate_synthetic_data_with docker_config.

(** *** notebook/lama_zits_pipeline.py *)

Definition notebook_config : config :=
  {| input_dir := "../input_video";
     mask_dir := "../masks";
     output_dirs := ["../lama_output"; "../zits_output"];
     frame_count := 10;
     frame_size := (256, 256);
     subtitle_region := (30, 220, 230, 250) |}.

(** Lines 37-48: frame [i] before it is saved. *)
Definition test_frame (cfg : config) (i : Z) : list (list (Z * Z * Z)) :=
  let img := np_full3 (fst (frame_size cfg)) (snd (frame_size cfg)) 255 in
  let img := imap (fun y row =>
                     let y := Z.of_nat y in
                     imap (fun _ _ => (uint8 (255 - y / 3), uint8 (200 + y / 8),
                                       uint8 (180 + y / 4))) row)
                  img in
  let img := cv2_putText img ("Video Frame " +:+ str_int (i + 1)) (50, 80)
                         (8 # 10) (0, 0, 0) 2 in
  let img := cv2_putText img "Sample Content" (50, 120) (6 # 10) (50, 50, 50) 1 in
  cv2_putText img ("Subtitle text " +:+ str_int (i + 1)) (40, 240) (7 # 10) (0, 0, 0) 2.

(** The loop body of lines 35-59 *)
Definition test_step (cfg : config) (i : Z) : M W unit :=
  let img := test_frame cfg i in
  _ ← imwrite (input_dir cfg +:+ "/frame_" +:+ zero_padded 3 i +:+ ".png") (Color img);
  let mask := mask_of cfg in
  imwrite (mask_dir cfg +:+ "/mask_" +:+ zero_padded 3 i +:+ ".png") (Gray mask).

(** [generate_test_data()], lines 13-65, with the dict of lines 17-25 as
    argument. *)
Definition generate_test_data_with (cfg : config) : M W config :=
  _ ← for_each ([input_dir cfg; mask_dir cfg] ++ output_dirs cfg) (fun dir_path =>
         _ ← makedirs dir_path;
         print [PStr "📁 Created directory: "; PStr dir_path]);
  _ ← print [PNewline; PStr "🎬 Generating "; PInt (frame_count cfg); PStr " test frames..."];
  _ ← for_each (range (frame_count cfg)) (test_step cfg);
  _ ← print [PStr "✅ Generated "; PInt (frame_count cfg); PStr " frames and masks"];
  _ ← print [PStr "   📁 Frames: "; PStr (input_dir cfg)];
  _ ← print [PStr "   🎭 Masks: "; PStr (mask_dir cfg)];
  mret cfg.

Definition generate_test_data : M W config :=
  generate_test_data_with notebook_config.

(** What each generator adds to the log when it returns. *)
Definition synthetic_events (cfg : config) : list event :=
  flat_map (fun dir_path =>
      [EMakedirs dir_path; EPrint [PStr "📁 Created directory: "; PStr dir_path]])
    [input_dir cfg; mask_dir cfg]
  ++ [EPrint [PNewline; PStr "🎬 Generating "; PInt (frame_count cfg);
              PStr " synthetic test frames..."]]
  ++ flat_map (fun i =>
      [EImwrite (input_dir cfg +:+ "/frame_" +:+ zero_padded 5 (i + 1) +:+ ".png")
                (Color (synthetic_frame cfg i));
       EImwrite (mask_dir cfg +:+ "/mask_" +:+ zero_padded 5 (i + 1) +:+ ".png")
                (Gray (mask_of cfg))])
    (range (frame_count cfg))
  ++ [EPrint [PStr "✅ Generated "; PInt (frame_count cfg);
              PStr " synthetic frames and masks"];
      EPrint [PStr "   📁 Frames: "; PStr (input_dir cfg)];
      EPrint [PStr "   🎭 Masks: "; PStr (mask_dir cfg)]].

Definition test_events (cfg : config) : list event :=
  flat_map (fun dir_path =>
      [EMakedirs dir_path; EPrint [PStr "📁 Created directory: "; PStr dir_path]])
    ([input_dir cfg; mask_dir cfg] ++ output_dirs cfg)
  ++ [EPrint [PNewline; PStr "🎬 Generating "; PInt (frame_count cfg);
              PStr " test frames..."]]
  ++ flat_map (fun i =>
      [EImwrite (input_dir cfg +:+ "/frame_" +:+ zero_padded 3 i +:+ ".png")
                (Color (test_frame cfg i));
       EImwrite (mask_dir cfg +:+ "/mask_" +:+ zero_padded 3 i +:+ ".png")
                (Gray (mask_of cfg))])
    (range (frame_count cfg))
  ++ [EPrint [PStr "✅ Generated "; PInt (frame_count cfg); PStr " frames and masks"];
      EPrint [PStr "   📁 Frames: "; PStr (input_dir cfg)];
      EPrint [PStr "   🎭 Masks: "; PStr (mask_dir cfg)]].

(** The files each generator writes, as a function of the config alone. *)
Definition synthetic_corpus (cfg : config) : list (string * image) :=
  flat_map (fun i =>
      [(input_dir cfg +:+ "/frame_" +:+ zero_padded 5 (i + 1) +:+ ".png",
        Color (synthetic_frame cfg i));
       (mask_dir cfg +:+ "/mask_" +:+ zero_padded 5 (i + 1) +:+ ".png",
        Gray (mask_of cfg))])
    (range (frame_count cfg)).

Definition test_corpus (cfg : config) : list (string * image) :=
  flat_map (fun i =>
      [(input_dir cfg +:+ "/frame_" +:+ zero_padded 3 i +:+ ".png",
        Color (test_frame cfg i));
       (mask_dir cfg +:+ "/mask_" +:+ zero_padded 3 i +:+ ".png",
        Gray (mask_of cfg))])
    (range (frame_count cfg)).

(** [check_environment()], lines 67-93 of the notebook variant.  [torch]
    is the module when [import torch] succeeds and [None] when it raises
    ImportError. *)
Definition check_environment (torch : option GpuDetector.torch_cuda)
    : M W (gmap string value) :=
  let gpu_available :=
    match torch with
    | Some t => GpuDetector.is_available t
    | None => false
    end in
  let device :=
    match torch with
    | Some t => if gpu_available then "cuda" else "cpu"
    | None => "cpu"
    end in
  in_docker ← query (os_path_exists "/.dockerenv");
  _ ← print [PStr "🔍 Environment Detection:"];
  _ ← print [PStr "   GPU Available: "; PStr (if gpu_available then "True" else "False")];
  _ ← print [PStr "   Device: "; PStr device];
  _ ← print [PStr "   Docker: "; PStr (if in_docker : bool then "True" else "False")];
  _ ← (if gpu_available then print [PStr "   🚀 GPU acceleration available"]
       else print [PStr "   💻 Running in CPU mode"]);
  mret (<["in_docker" := VBool in_docker]>
        (<["device" := VStr device]>
        (<["gpu_available" := VBool gpu_available]> ∅))).

End Generators.

(** The files a run writes, in order: what the log keeps of [cv2.imwrite]. *)
Definition written (evs : list event) : list (string * image) :=
  omap (fun ev => match ev with
                  | EImwrite path img => Some (path, img)
                  | _ => None
                  end) evs.

End Pipeline.

(** ** Reading a log *)

Module Trace.

(** The commands handed to [subprocess.run], in order. *)
Definition tool_runs (evs : list event) : list (list string) :=
  omap (fun ev => match ev with ERun cmd _ => Some cmd | _ => None end) evs.

(** The requests sent to the object store. *)
Definition is_network (ev : event) : bool :=
  match ev with
  | EListBuckets _ | EDownload _ _ _ _ | EUpload _ _ _ _ | EHeadObject _ _ _ => true
  | _ => false
  end.

Definition network_calls (evs : list event) : list event :=
  filter (fun ev => Is_true (is_network ev)) evs.

(** The upload requests, (filename, bucket, key), in order. *)
Definition attempts (evs : list event) : list (string * string * string) :=
  omap (fun ev => match ev with
                  | EUpload f b k _ => Some (f, b, k)
                  | _ => None
                  end) evs.

(** How many upload requests succeeded, and how many raised. *)
Definition uploaded (evs : list event) : Z :=
  Z.of_nat (length (omap (fun ev => match ev with
                                    | EUpload _ _ _ (Ok _) => Some tt
                                    | _ => None
                                    end) evs)).

(** The upload requests that raised, with the exception. *)
Definition failed (evs : list event) : list (string * exn) :=
  omap (fun ev => match ev with
                  | EUpload f _ _ (Raise e) => Some (f, e)
                  | _ => None
                  end) evs.

(** The per-file failures the run reported on stdout: the relative path
    and the exception of each "Failed to upload" line. *)
Definition failures_reported (evs : list event) : list (string * exn) :=
  omap (fun ev => match ev with
                  | EPrint [PStr "   ❌ Failed to upload "; PStr rel; PStr ": "; PExn e] =>
                      Some (rel, e)
                  | _ => None
                  end) evs.

(** The (root, file) pairs of an [os.walk], in the order the two nested
    loops visit them. *)
Definition walk_files (walk : list (string * list string * list string))
    : list (string * string) :=
  flat_map (fun '(root, _, files) => map (pair root) files) walk.

(** The request [upload_directory] sends for the file [file] found under
    [root]: local path, bucket and derived key. *)
Definition planned `{PyLib} (local_dir bucket base_key : string)
    (rf : string * string) : string * string * string :=
  let local_file_path := os_path_join (fst rf) (snd rf) in
  let relative_path := os_path_relpath local_file_path local_dir in
  (local_file_path, bucket,
   replace_char "\" "/" (base_key +:+ "/" +:+ relative_path)).

(** What one run of a loop over files leaves in the log: every file was
    sent, in order; each request that raised was reported with its
    relative path; successes and failures add up to the files. *)
Definition accounts_for `{PyLib} (local_dir bucket base_key : string)
    (files : list (string * string)) (evs : list event) : Prop :=
  attempts evs = map (planned local_dir bucket base_key) files /\
  failures_reported evs
  = map (fun fe => (os_path_relpath (fst fe) local_dir, snd fe)) (failed evs) /\
  uploaded evs + Z.of_nat (length (failed evs)) = Z.of_nat (length files).

End Trace.

Import Trace.

(** ** Scripted worlds

    A world whose answers are fixed in advance and which no call changes.
    The concrete scenarios below are instances of it. *)

Module Scripted.

Record script : Type := Script {
  sc_makedirs : string -> result unit;
  sc_listdir : string -> result (list string);
  sc_exists : string -> bool;
  sc_getsize : string -> result Z;
  sc_walk : string -> list (string * list string * list string);
  sc_run : list string -> result completed_process;
  sc_list_buckets : result unit;
  sc_download : string -> string -> string -> result unit;
  sc_upload : string -> string -> string -> result unit;
  sc_head : string -> string -> result unit
}.

#[global] Instance script_world : World script := {|
  os_makedirs p w := (sc_makedirs w p, w);
  os_listdir p w := sc_listdir w p;
  os_path_exists p w := sc_exists w p;
  os_path_getsize p w := sc_getsize w p;
  os_walk p w := sc_walk w p;
  subprocess_run cmd w := (sc_run w cmd, w);
  s3_list_buckets w := (sc_list_buckets w, w);
  s3_download_file b k f w := (sc_download w b k f, w);
  s3_upload_file f b k w := (sc_upload w f b k, w);
  s3_head_object b k w := (sc_head w b k, w);
  cv2_imwrite _ _ w := w
|}.

(** What ffprobe prints for a clip with sound and picture, and for a
    sound file, once parsed. *)
Definition probe_one_video_stream : json :=
  JDict [("streams", JList [JDict [("codec_type", JStr "audio")];
                            JDict [("codec_type", JStr "video");
                                   ("width", JInt 1920); ("height", JInt 1080);
                                   ("r_frame_rate", JStr "30/1")]]);
         ("format", JDict [("duration", JStr "2.000000")])].

Definition probe_audio_only : json :=
  JDict [("streams", JList [JDict [("codec_type", JStr "audio")]]);
         ("format", JDict [("duration", JStr "2.000000")])].

(** posixpath.join for a relative second component, and relpath for a
    path that [start] prefixes; JSON and numbers are read from a table
    of the few texts the scenarios use. *)
#[global] Instance script_pylib : PyLib := {|
  os_path_join a b := a +:+ "/" +:+ b;
  os_path_relpath p start := str_drop (String.length start + 1) p;
  json_loads text :=
    if String.eqb text "video" then Ok probe_one_video_stream
    else if String.eqb text "audio" then Ok probe_audio_only
    else Raise (Exn ValueError "Expecting value");
  py_eval text :=
    if String.eqb text "30/1" then Ok (30 # 1)
    else Raise (Exn RuntimeError "invalid syntax");
  py_float j :=
    match j with
    | JStr "2.000000" => Ok (2 # 1)
    | JInt z => Ok (z # 1)
    | JReal q => Ok q
    | _ => Raise (Exn ValueError "could not convert string to float")
    end;
  py_int j :=
    match j with
    | JInt z => Ok z
    | _ => Raise (Exn ValueError "invalid literal for int()")
    end
|}.

(** A world without state in which every call succeeds and no file
    exists. *)
#[global] Instance calm_world : World unit := {|
  os_makedirs _ w := (Ok tt, w);
  os_listdir _ _ := Ok [];
  os_path_exists _ _ := false;
  os_path_getsize _ _ := Raise (Exn OSError "No such file or directory");
  os_walk _ _ := [];
  subprocess_run _ w := (Ok (Completed 0 EmptyString EmptyString), w);
  s3_list_buckets w := (Ok tt, w);
  s3_download_file _ _ _ w := (Ok tt, w);
  s3_upload_file _ _ _ w := (Ok tt, w);
  s3_head_object _ _ w := (Ok tt, w);
  cv2_imwrite _ _ w := w
|}.

(** A rasteriser that draws nothing, and floats cut down to integers. *)
#[global] Instance blank_raster : Raster := {|
  text_covers _ _ _ _ _ _ := false;
  circle_covers _ _ _ _ := false;
  getTextSize _ _ _ := (0, 0)
|}.

#[global] Instance integer_floats : Pipeline.Floats Z := {|
  Pipeline.of_int z := z;
  Pipeline.fadd := Z.add;
  Pipeline.fmul := Z.mul;
  Pipeline.fdiv := Z.quot;
  Pipeline.np_sin _ := 0;
  Pipeline.np_cos _ := 1;
  Pipeline.np_pi := 3;
  Pipeline.int_of z := z
|}.

Definition completed (rc : Z) (out : string) : result completed_process :=
  Ok (Completed rc out EmptyString).

Definition is_ffprobe (cmd : list string) : bool :=
  match cmd with
  | tool :: _ => String.eqb tool "ffprobe"
  | [] => false
  end.

(** Nothing exists, every tool and every request succeeds, and ffprobe
    reports one video stream. *)
Definition quiet : script :=
  {| sc_makedirs _ := Ok tt;
     sc_listdir _ := Ok [];
     sc_exists _ := false;
     sc_getsize _ := Raise (Exn OSError "No such file or directory");
     sc_walk _ := [];
     sc_run cmd := completed 0 (if is_ffprobe cmd then "video" else EmptyString);
     sc_list_buckets := Ok tt;
     sc_download _ _ _ := Ok tt;
     sc_upload _ _ _ := Ok tt;
     sc_head _ _ := Ok tt |}.

End Scripted.

(** ** Scenarios *)

Module Scenarios.
Import Scripted.

(** A source with an audio stream only. *)
Definition audio_only : script :=
  {| sc_makedirs := sc_makedirs quiet;
     sc_listdir := sc_listdir quiet;
     sc_exists := sc_exists quiet;
     sc_getsize := sc_getsize quiet;
     sc_walk := sc_walk quiet;
     sc_run cmd := completed 0 (if is_ffprobe cmd then "audio" else EmptyString);
     sc_list_buckets := sc_list_buckets quiet;
     sc_download := sc_download quiet;
     sc_upload := sc_upload quiet;
     sc_head := sc_head quiet |}.

(** A frame directory with two frames and a stray file; the codec tool
    exits with 0 and leaves no output file behind. *)
Definition two_frames : script :=
  {| sc_makedirs := sc_makedirs quiet;
     sc_listdir _ := Ok ["frame_00002.png"; "notes.txt"; "frame_00001.png"];
     sc_exists := sc_exists quiet;
     sc_getsize := sc_getsize quiet;
     sc_walk := sc_walk quiet;
     sc_run := sc_run quiet;
     sc_list_buckets := sc_list_buckets quiet;
     sc_download := sc_download quiet;
     sc_upload := sc_upload quiet;
     sc_head := sc_head quiet |}.

(** The same directory when the codec tool has written its output. *)
Definition two_frames_encoded : script :=
  {| sc_makedirs := sc_makedirs quiet;
     sc_listdir := sc_listdir two_frames;
     sc_exists p := String.eqb p "out.mp4";
     sc_getsize _ := Ok 2097152;
     sc_walk := sc_walk quiet;
     sc_run := sc_run quiet;
     sc_list_buckets := sc_list_buckets quiet;
     sc_download := sc_download quiet;
     sc_upload := sc_upload quiet;
     sc_head := sc_head quiet |}.

(** A tree of three files; the object store refuses the second one. *)
Definition three_files : script :=
  {| sc_makedirs := sc_makedirs quiet;
     sc_listdir := sc_listdir quiet;
     sc_exists := sc_exists quiet;
     sc_getsize := sc_getsize quiet;
     sc_walk _ := [("out", ["sub"], ["a.png"; "b.png"]); ("out/sub", [], ["c.png"])];
     sc_run := sc_run quiet;
     sc_list_buckets := sc_list_buckets quiet;
     sc_download := sc_download quiet;
     sc_upload f _ _ :=
       if String.eqb f "out/b.png"
       then Raise (Exn S3UploadFailedError "Failed to upload out/b.png")
       else Ok tt;
     sc_head := sc_head quiet |}.

(** The transfer completes and leaves a file of zero bytes. *)
Definition zero_byte : script :=
  {| sc_makedirs := sc_makedirs quiet;
     sc_listdir := sc_listdir quiet;
     sc_exists _ := true;
     sc_getsize _ := Ok 0;
     sc_walk := sc_walk quiet;
     sc_run := sc_run quiet;
     sc_list_buckets := sc_list_buckets quiet;
     sc_download := sc_download quiet;
     sc_upload := sc_upload quiet;
     sc_head := sc_head quiet |}.

(** The endpoint of the object store cannot be reached. *)
Definition unreachable : script :=
  {| sc_makedirs := sc_makedirs quiet;
     sc_listdir := sc_listdir quiet;
     sc_exists := sc_exists quiet;
     sc_getsize := sc_getsize quiet;
     sc_walk := sc_walk quiet;
     sc_run := sc_run quiet;
     sc_list_buckets := sc_list_buckets quiet;
     sc_download _ _ _ := Raise (Exn BotoCoreError "Could not connect to the endpoint URL");
     sc_upload _ _ _ := Raise (Exn BotoCoreError "Could not connect to the endpoint URL");
     sc_head _ _ := Raise (Exn BotoCoreError "Could not connect to the endpoint URL") |}.

(** The object is not in the bucket: HEAD answers 404. *)
Definition not_found : script :=
  {| sc_makedirs := sc_makedirs quiet;
     sc_listdir := sc_listdir quiet;
     sc_exists := sc_exists quiet;
     sc_getsize := sc_getsize quiet;
     sc_walk := sc_walk quiet;
     sc_run := sc_run quiet;
     sc_list_buckets := sc_list_buckets quiet;
     sc_download := sc_download quiet;
     sc_upload := sc_upload quiet;
     sc_head _ _ := Raise (Exn ClientError "An error occurred (404) when calling the HeadObject operation: Not Found") |}.

Definition start {W} (w : W) : state W := State w [].

(** No credentials are configured. *)
Definition no_credentials : script :=
  {| sc_makedirs := sc_makedirs quiet;
     sc_listdir := sc_listdir quiet;
     sc_exists := sc_exists quiet;
     sc_getsize := sc_getsize quiet;
     sc_walk := sc_walk three_files;
     sc_run := sc_run quiet;
     sc_list_buckets := Raise (Exn NoCredentialsError "Unable to locate credentials");
     sc_download := sc_download quiet;
     sc_upload := sc_upload quiet;
     sc_head := sc_head quiet |}.

(** The same world after an earlier run has left files behind. *)
Definition used : script :=
  {| sc_makedirs := sc_makedirs quiet;
     sc_listdir _ := Ok ["frame_00001.png"; "frame_00002.png"; "frame_00003.png"];
     sc_exists _ := true;
     sc_getsize _ := Ok 4096;
     sc_walk := sc_walk quiet;
     sc_run := sc_run quiet;
     sc_list_buckets := sc_list_buckets quiet;
     sc_download := sc_download quiet;
     sc_upload := sc_upload quiet;
     sc_head := sc_head quiet |}.

(** A corpus small enough to print: two frames of 4 rows by 6 columns. *)
Definition small_config : Pipeline.config :=
  {| Pipeline.input_dir := "in";
     Pipeline.mask_dir := "masks";
     Pipeline.output_dirs := [];
     Pipeline.frame_count := 2;
     Pipeline.frame_size := (4, 6);
     Pipeline.subtitle_region := (1, 2, 5, 4) |}.

End Scenarios.

(** * Properties *)

(** ** Stepping through a program *)

Module Steps.

Ltac run :=
  unfold mbind, mret, M_bind, M_ret, bind, ret, try_except, try_except_only,
    lift, query, query_r, perform, print, emit, raise, imwrite in *;
  simpl in *.

Ltac tidy_log := rewrite <- ?app_assoc; simpl.

(** After a run from [s] has been computed, name the state it ends in and
    the events it added. *)
Ltac name_run s :=
  tidy_log;
  lazymatch goal with
  | |- exists (_ : state _) (_ : list event),
         (_, State ?w (log s ++ ?l)) = _ /\ _ =>
      exists (State w (log s ++ l)), l
  | |- exists _ (_ : state _) (_ : list event),
         (Ok ?a, State ?w (log s ++ ?l)) = _ /\ _ =>
      exists a, (State w (log s ++ l)), l
  end.

Lemma insert_sorted_not_nil x l : insert_sorted x l <> [].
Proof. destruct l as [|y l]; simpl; [done|]. by destruct (String.leb x y). Qed.

Lemma sorted_nil l : sorted l = [] <-> l = [].
Proof.
  split; [|by intros ->].
  destruct l as [|x l]; [done|]. simpl.
  intros Hs. by apply insert_sorted_not_nil in Hs.
Qed.

Lemma tool_runs_app evs1 evs2 :
  tool_runs (evs1 ++ evs2) = tool_runs evs1 ++ tool_runs evs2.
Proof. unfold tool_runs. by rewrite omap_app. Qed.

Lemma network_calls_app evs1 evs2 :
  network_calls (evs1 ++ evs2) = network_calls evs1 ++ network_calls evs2.
Proof. unfold network_calls. by rewrite filter_app. Qed.

Lemma attempts_app evs1 evs2 :
  attempts (evs1 ++ evs2) = attempts evs1 ++ attempts evs2.
Proof. unfold attempts. by rewrite omap_app. Qed.

Lemma failed_app evs1 evs2 : failed (evs1 ++ evs2) = failed evs1 ++ failed evs2.
Proof. unfold failed. by rewrite omap_app. Qed.

Lemma failures_reported_app evs1 evs2 :
  failures_reported (evs1 ++ evs2)
  = failures_reported evs1 ++ failures_reported evs2.
Proof. unfold failures_reported. by rewrite omap_app. Qed.

Lemma uploaded_app evs1 evs2 :
  uploaded (evs1 ++ evs2) = uploaded evs1 + uploaded evs2.
Proof. unfold uploaded. rewrite omap_app, length_app. lia. Qed.

Lemma uploaded_nonneg evs : 0 <= uploaded evs.
Proof. unfold uploaded. lia. Qed.

(** *** What a program adds to the log *)

Lemma emits_ret {W A} (a : A) : emits (W:=W) (Sys.ret a) [] a.
Proof. intros s r s' [= <- <-]. by rewrite app_nil_r. Qed.

Lemma emits_bind {W A B} (m : M W A) (k : A -> M W B) evs1 evs2 a b :
  emits m evs1 a -> emits (k a) evs2 b -> emits (Sys.bind m k) (evs1 ++ evs2) b.
Proof.
  intros Hm Hk s r s' Hrun. unfold Sys.bind in Hrun.
  destruct (m s) as [[a'|e] s1] eqn:Hms; [|discriminate].
  destruct (Hm _ _ _ Hms) as [-> Hlog1].
  destruct (Hk _ _ _ Hrun) as [-> Hlog2].
  split; [done|]. by rewrite Hlog2, Hlog1, app_assoc.
Qed.

Lemma emits_print {W} (m : message) : emits (W:=W) (print m) [EPrint m] tt.
Proof. by intros s r s' [= <- <-]. Qed.

Lemma emits_imwrite `{World W} path img :
  emits (imwrite path img) [EImwrite path img] tt.
Proof. by intros s r s' [= <- <-]. Qed.

Lemma emits_makedirs `{World W} path : emits (makedirs path) [EMakedirs path] tt.
Proof.
  intros s r s' Hrun. unfold makedirs in Hrun.
  destruct path as [|c p]; [discriminate|]. run.
  destruct (os_makedirs (String c p) (world s)) as [[[]|e] w']; by simplify_eq/=.
Qed.

Lemma emits_for_each {W A} (xs : list A) (body : A -> M W unit) (g : A -> list event) :
  (forall x, emits (body x) (g x) tt) ->
  emits (for_each xs body) (flat_map g xs) tt.
Proof.
  intros Hbody. induction xs as [|x xs IH]; simpl.
  - apply emits_ret.
  - by eapply emits_bind.
Qed.

Lemma written_app evs1 evs2 :
  Pipeline.written (evs1 ++ evs2) = Pipeline.written evs1 ++ Pipeline.written evs2.
Proof. unfold Pipeline.written. by rewrite omap_app. Qed.

Lemma written_flat_map {A} (g : A -> list event) (h : A -> list (string * image)) xs :
  (forall x, Pipeline.written (g x) = h x) ->
  Pipeline.written (flat_map g xs) = flat_map h xs.
Proof.
  intros Hg. induction xs as [|x xs IH]; simpl; [done|].
  by rewrite written_app, Hg, IH.
Qed.

Lemma flat_map_nil {A B} (xs : list A) : flat_map (fun _ => @nil B) xs = [].
Proof. by induction xs. Qed.

End Steps.

(** ** Storage staging client *)

Module S3HandlerProofs.
Import Steps S3Handler Scenarios Scripted.

(** The example of the specification. *)
Lemma parse_s3_url_example :
  parse_s3_url "s3://bucket/a/b/c" = Ok ("bucket", "a/b/c").
Proof. reflexivity. Qed.

Lemma parse_s3_url_missing_scheme s3_url :
  startswith s3_url "s3://" = false ->
  parse_s3_url s3_url = Raise (Exn ValueError "S3 URL must start with 's3://'").
Proof. intros Hp. unfold parse_s3_url. by rewrite Hp. Qed.

Lemma parse_s3_url_missing_scheme_example :
  parse_s3_url "bucket/key" = Raise (Exn ValueError "S3 URL must start with 's3://'").
Proof. reflexivity. Qed.

Lemma parse_s3_url_missing_key_example :
  parse_s3_url "s3://bucket"
  = Raise (Exn ValueError "S3 URL must include bucket and key: s3://bucket/key").
Proof. reflexivity. Qed.

(** What [split_once] returns: one part when the separator is absent,
    else the text on both sides of its first occurrence. *)
Lemma split_once_cases sep s :
  (split_once sep s = [s] /\ forall a b, s <> a +:+ String sep b) \/
  (exists a b, split_once sep s = [a; b] /\ s = a +:+ String sep b /\
               forall a' b', a <> a' +:+ String sep b').
Proof.
  induction s as [|c s IH]; simpl.
  - left. split; [done|]. intros [|] ?; discriminate.
  - destruct (Ascii.eqb c sep) eqn:Hc.
    + apply Ascii.eqb_eq in Hc as ->. right. exists EmptyString, s.
      repeat split; try done. intros [|] ?; discriminate.
    + apply Ascii.eqb_neq in Hc.
      destruct IH as [[-> Hno]|(a & b & -> & -> & Hno)].
      * left. split; [done|]. intros [|c' a] b; simpl; intros [= ? ?]; subst.
        -- done.
        -- by eapply Hno.
      * right. exists (String c a), b. repeat split; try done.
        intros [|c' a'] b'; simpl; intros [= ? ?]; subst; [done|].
        by eapply Hno.
Qed.

Lemma first_separator_unique sep a b a' b' :
  a +:+ String sep b = a' +:+ String sep b' ->
  (forall x y, a <> x +:+ String sep y) ->
  (forall x y, a' <> x +:+ String sep y) ->
  a = a' /\ b = b'.
Proof.
  revert a'. induction a as [|c a IH]; intros [|c' a'] Heq Hno Hno'.
  - by injection Heq as ->.
  - injection Heq as -> ->. by destruct (Hno' EmptyString a').
  - injection Heq as -> <-. by destruct (Hno EmptyString a).
  - injection Heq as -> Heq.
    destruct (IH a' Heq) as [-> ->]; [| |done].
    + intros x y ->. by destruct (Hno (String c' x) y).
    + intros x y ->. by destruct (Hno' (String c' x) y).
Qed.

(** The parser accepts exactly the texts ['s3://' + bucket + '/' + key]
    in which [bucket] has no slash; [bucket] and [key] may be empty. *)
Lemma parse_s3_url_accepts s3_url bucket key :
  parse_s3_url s3_url = Ok (bucket, key) <->
  s3_url = "s3://" +:+ bucket +:+ "/" +:+ key /\
  (forall a b, bucket <> a +:+ "/" +:+ b).
Proof.
  unfold parse_s3_url, startswith. cbv zeta. split.
  - remember (str_drop 5 s3_url) as path eqn:Hpath.
    destruct (String.prefix "s3://" s3_url) eqn:Hp; simpl; [|discriminate].
    apply String.prefix_correct in Hp.
    assert (Hurl : s3_url = "s3://" +:+ path).
    { subst path. do 5 (destruct s3_url as [|? s3_url]; [discriminate|]).
      simpl in Hp. injection Hp as -> -> -> -> ->. reflexivity. }
    destruct (split_once_cases "/" path)
      as [[-> _]|(a & b & -> & Hab & Hno)]; simpl; [discriminate|].
    intros [= <- <-]. split; [|exact Hno].
    rewrite Hurl. by rewrite Hab.
  - intros [-> Hno].
    set (rest := bucket +:+ "/" +:+ key).
    replace (String.prefix "s3://" ("s3://" +:+ rest)) with true
      by (by destruct rest).
    change (str_drop 5 ("s3://" +:+ rest)) with rest.
    subst rest. cbn [negb].
    destruct (split_once_cases "/" (bucket +:+ "/" +:+ key))
      as [[_ Habs]|(a & b & Hsp & Hab & Hno')].
    + by destruct (Habs bucket key).
    + rewrite Hsp. simpl.
      destruct (first_separator_unique "/" a b bucket key) as [-> ->]; done.
Qed.

(** C2 (the code departs from the claim).  The text 's3://bucket/' has no
    key segment after the bucket, and 's3:///key' has no bucket; the
    parser accepts both and returns an empty component, where the claim
    has it fail and has every accepted locator non-empty on both sides. *)
Theorem parse_s3_url_accepts_empty_key :
  parse_s3_url "s3://bucket/" = Ok ("bucket", EmptyString) /\
  parse_s3_url "s3:///key" = Ok (EmptyString, "key").
Proof. split; reflexivity. Qed.

Lemma parse_s3_url_raises s3_url e :
  parse_s3_url s3_url = Raise e -> exn_cls e <> ClientError.
Proof.
  unfold parse_s3_url. repeat case_match; intros [= <-]; done.
Qed.

Section Methods.
Context {W : Type} `{World W}.

(** C6 as amended.  In the "remote unavailable" state, for every text,
    [check_file_exists] returns False and does nothing.  Otherwise its
    result is fixed by the parser and by HEAD: it returns True exactly
    when the text parses and HEAD succeeds; a ClientError raised by HEAD
    gives False; any other exception (the ValueError of a malformed text,
    an unreachable endpoint) is raised to the caller, and so no
    ClientError ever leaves the method. *)
Theorem check_file_exists_catches_client_errors
    (self : handler) (s3_url : string) (s : state W) :
  exists (r : result bool) (s' : state W),
    check_file_exists self s3_url s = (r, s') /\
    (aws_available self = false -> r = Ok false /\ s' = s) /\
    (aws_available self = true ->
       (forall e, parse_s3_url s3_url = Raise e -> r = Raise e) /\
       (forall bucket key,
          parse_s3_url s3_url = Ok (bucket, key) ->
          (fst (s3_head_object bucket key (world s)) = Ok tt -> r = Ok true) /\
          (forall e, fst (s3_head_object bucket key (world s)) = Raise e ->
             (exn_cls e = ClientError -> r = Ok false) /\
             (exn_cls e <> ClientError -> r = Raise e)))) /\
    (r = Ok true ->
       exists bucket key,
         parse_s3_url s3_url = Ok (bucket, key) /\
         fst (s3_head_object bucket key (world s)) = Ok tt) /\
    (forall e, r = Raise e -> aws_available self = true /\ exn_cls e <> ClientError).
Proof.
  unfold check_file_exists. destruct (aws_available self); run.
  2:{ eexists _, _. split; [reflexivity|]. by repeat split. }
  destruct (parse_s3_url s3_url) as [[bucket key]|e] eqn:Hparse; simpl.
  - destruct (s3_head_object bucket key (world s)) as [[[]|e] w'] eqn:Hhead; simpl.
    + eexists _, _. split; [reflexivity|]. split; [done|]. split; [|split].
      * intros _. split; [done|]. intros b k [= <- <-]. rewrite Hhead.
        split; [done|]. by intros e.
      * intros _. exists bucket, key. by rewrite Hhead.
      * done.
    + destruct (exn_class_eqb (exn_cls e) ClientError) eqn:Hcls; simpl.
      * assert (Hc : exn_cls e = ClientError) by (by destruct (exn_cls e)).
        eexists _, _. split; [reflexivity|]. split; [done|]. split; [|done].
        intros _. split; [done|]. intros b k [= <- <-]. rewrite Hhead.
        split; [done|]. intros e' [= <-]. split; [done|]. by intros [].
      * assert (Hc : exn_cls e <> ClientError).
        { intros Hc. by rewrite Hc in Hcls. }
        eexists _, _. split; [reflexivity|]. split; [done|]. split; [|split].
        -- intros _. split; [done|]. intros b k [= <- <-]. rewrite Hhead.
           split; [done|]. intros e' [= <-]. split; [by intros ?|done].
        -- done.
        -- by intros e' [= <-].
  - pose proof (parse_s3_url_raises _ _ Hparse) as Hne.
    assert (exn_class_eqb (exn_cls e) ClientError = false) as ->.
    { destruct (exn_cls e); done. }
    simpl. eexists _, _. split; [reflexivity|]. split; [done|]. split; [|split].
    + intros _. split; [by intros e' [= <-]|done].
    + done.
    + by intros e' [= <-].
Qed.

Lemma accounts_for_app `{PyLib} local_dir bucket base_key files1 files2 evs1 evs2 :
  accounts_for local_dir bucket base_key files1 evs1 ->
  accounts_for local_dir bucket base_key files2 evs2 ->
  accounts_for local_dir bucket base_key (files1 ++ files2) (evs1 ++ evs2).
Proof.
  intros (Ha1 & Hr1 & Hc1) (Ha2 & Hr2 & Hc2). repeat split.
  - by rewrite attempts_app, map_app, Ha1, Ha2.
  - by rewrite failures_reported_app, failed_app, map_app, Hr1, Hr2.
  - rewrite uploaded_app, failed_app, !length_app. lia.
Qed.

Lemma upload_one_accounts `{PyLib} local_dir bucket base_key root n file (s : state W) :
  exists (s' : state W) (evs : list event),
    upload_one local_dir bucket base_key root n file s = (Ok (n + uploaded evs), s') /\
    log s' = log s ++ evs /\
    accounts_for local_dir bucket base_key [(root, file)] evs.
Proof.
  unfold upload_one. run.
  destruct (s3_upload_file _ _ _ (world s)) as [[[]|e] w']; simpl.
  - name_run s. split; [|split; [reflexivity|by repeat split]].
    do 2 f_equal.
  - name_run s. split; [|split; [reflexivity|by repeat split]].
    do 2 f_equal. unfold uploaded. simpl. lia.
Qed.

Lemma upload_files_account `{PyLib} local_dir bucket base_key root files n (s : state W) :
  exists (s' : state W) (evs : list event),
    for_fold files n (upload_one local_dir bucket base_key root) s
    = (Ok (n + uploaded evs), s') /\
    log s' = log s ++ evs /\
    accounts_for local_dir bucket base_key (map (pair root) files) evs.
Proof.
  revert n s. induction files as [|file files IH]; intros n s; simpl.
  - exists s, []. unfold Sys.ret. repeat split; try done.
    + f_equal. f_equal. unfold uploaded. simpl. lia.
    + by rewrite app_nil_r.
  - destruct (upload_one_accounts local_dir bucket base_key root n file s)
      as (s1 & evs1 & Hrun1 & Hlog1 & Hacc1).
    destruct (IH (n + uploaded evs1) s1) as (s2 & evs2 & Hrun2 & Hlog2 & Hacc2).
    exists s2, (evs1 ++ evs2). unfold Sys.bind. rewrite Hrun1, Hrun2.
    split; [|split].
    + rewrite uploaded_app. do 2 f_equal. lia.
    + by rewrite Hlog2, Hlog1, app_assoc.
    + by apply (accounts_for_app _ _ _ [(root, file)]).
Qed.

Lemma upload_walk_accounts `{PyLib} local_dir bucket base_key walk n (s : state W) :
  exists (s' : state W) (evs : list event),
    for_fold walk n (fun uploaded_files '(root, dirs, files) =>
      for_fold files uploaded_files (upload_one local_dir bucket base_key root)) s
    = (Ok (n + uploaded evs), s') /\
    log s' = log s ++ evs /\
    accounts_for local_dir bucket base_key (walk_files walk) evs.
Proof.
  revert n s. induction walk as [|[[root dirs] files] walk IH]; intros n s; simpl.
  - exists s, []. unfold Sys.ret. repeat split; try done.
    + f_equal. f_equal. unfold uploaded. simpl. lia.
    + by rewrite app_nil_r.
  - destruct (upload_files_account local_dir bucket base_key root files n s)
      as (s1 & evs1 & Hrun1 & Hlog1 & Hacc1).
    destruct (IH (n + uploaded evs1) s1) as (s2 & evs2 & Hrun2 & Hlog2 & Hacc2).
    exists s2, (evs1 ++ evs2). unfold Sys.bind. rewrite Hrun1, Hrun2.
    split; [|split].
    + rewrite uploaded_app. do 2 f_equal. lia.
    + by rewrite Hlog2, Hlog1, app_assoc.
    + by apply accounts_for_app.
Qed.

(** C4.  [upload_directory] always returns a bool, and it returns True
    exactly when at least one upload request succeeded.  With credentials
    and a well-formed base locator, a request that raises does not stop
    the walk: every file of the walk is sent, in walk order, under the key
    derived from the base key and its relative path; each request that
    raised is reported with its relative path and exception; the count it
    prints is the number of requests that succeeded, which is the number
    of files minus the number of failures.  In particular, when exactly
    one of the N requests raises, the count is N-1 and the call succeeds
    exactly when N-1 > 0. *)
Theorem upload_directory_tolerates_failures `{PyLib}
    (self : handler) (local_dir s3_base_url : string) (s : state W) :
  exists (ok : bool) (s' : state W) (evs : list event),
    upload_directory self local_dir s3_base_url s = (Ok ok, s') /\
    log s' = log s ++ evs /\
    (ok = true <-> 0 < uploaded evs) /\
    (aws_available self = true ->
     forall bucket base_key,
       parse_s3_url s3_base_url = Ok (bucket, base_key) ->
       let files := walk_files (os_walk local_dir (world s)) in
       let N := Z.of_nat (length files) in
       attempts evs = map (planned local_dir bucket base_key) files /\
       failures_reported evs
       = map (fun fe => (os_path_relpath (fst fe) local_dir, snd fe)) (failed evs) /\
       uploaded evs = N - Z.of_nat (length (failed evs)) /\
       In (EPrint [PStr "✅ Directory upload completed: "; PInt (uploaded evs);
                   PStr " files"]) evs /\
       (length (failed evs) = 1%nat ->
        uploaded evs = N - 1 /\ (ok = true <-> 0 < N - 1))).
Proof.
  unfold upload_directory. destruct (aws_available self); simpl.
  - unfold try_except, mbind, M_bind, Sys.bind at 1, lift.
    destruct (parse_s3_url s3_base_url) as [[bucket base_key]|e] eqn:Hparse.
    + unfold Sys.bind at 1, query.
      unfold Sys.bind at 1.
      destruct (upload_walk_accounts local_dir bucket base_key
                  (os_walk local_dir (world s)) 0 s)
        as (s1 & evs1 & Hrun1 & Hlog1 & Hatt & Hrep & Hcount).
      rewrite Hrun1. run.
      set (done_msg := EPrint _).
      exists (0 <? uploaded evs1), (State (world s1) (log s1 ++ [done_msg])),
             (evs1 ++ [done_msg]).
      assert (Hup : uploaded (evs1 ++ [done_msg]) = uploaded evs1).
      { rewrite uploaded_app. unfold uploaded at 2. simpl. lia. }
      split; [reflexivity|]. split; [simpl; by rewrite Hlog1, app_assoc|].
      split; [rewrite Hup; split; [intros ?%Z.ltb_lt|intros ?; apply Z.ltb_lt]; done|].
      intros _ b k [= <- <-]. simpl.
      assert (Hfail : failed (evs1 ++ [done_msg]) = failed evs1).
      { rewrite failed_app. simpl. by rewrite app_nil_r. }
      rewrite Hup, Hfail. repeat split.
      * rewrite attempts_app. simpl. by rewrite app_nil_r.
      * rewrite failures_reported_app. simpl. by rewrite app_nil_r.
      * lia.
      * apply in_or_app. right. by left.
      * lia.
      * intros ?%Z.ltb_lt. lia.
      * intros ?. apply Z.ltb_lt. lia.
    + run. eexists false, _, _. split; [reflexivity|]. split; [reflexivity|].
      split; [split; [done|]; unfold uploaded; simpl; lia|].
      by intros _ b k [=].
  - run. eexists false, _, _. split; [reflexivity|]. split; [reflexivity|].
    split; [split; [done|]; unfold uploaded; simpl; lia|]. done.
Qed.

(** C5 as amended.  [download_file] always returns a bool.  Without
    credentials it returns False, sends nothing to the object store and
    leaves the world as it was.  With credentials and a well-formed
    locator, when [local_path] has a directory part the first thing it
    does is [os.makedirs] on that directory, before any request.  It
    returns True only after a download request that did not raise and
    with the local file in place: a missing file is failure.  And it does
    return True whenever the directory could be created, the request did
    not raise and the file exists afterwards, whatever its size, zero
    included: the size is printed and not checked. *)
Theorem download_file_checks_credentials_and_presence
    (self : handler) (s3_url local_path : string) (s : state W) :
  exists (ok : bool) (s' : state W) (evs : list event),
    download_file self s3_url local_path s = (Ok ok, s') /\
    log s' = log s ++ evs /\
    (aws_available self = false ->
       ok = false /\ network_calls evs = [] /\ world s' = world s) /\
    (aws_available self = true ->
       is_ok (parse_s3_url s3_url) = true ->
       os_path_dirname local_path <> EmptyString ->
       exists rest, evs = EMakedirs (os_path_dirname local_path) :: rest) /\
    (ok = true ->
       exists bucket key,
         parse_s3_url s3_url = Ok (bucket, key) /\
         In (EDownload bucket key local_path (Ok tt)) evs /\
         os_path_exists local_path (world s') = true) /\
    (os_path_exists local_path (world s') = false -> ok = false) /\
    (forall bucket key w1 w2 size,
       aws_available self = true ->
       parse_s3_url s3_url = Ok (bucket, key) ->
       os_path_dirname local_path <> EmptyString ->
       os_makedirs (os_path_dirname local_path) (world s) = (Ok tt, w1) ->
       s3_download_file bucket key local_path w1 = (Ok tt, w2) ->
       os_path_exists local_path w2 = true ->
       os_path_getsize local_path w2 = Ok size ->
       ok = true /\ world s' = w2).
Proof.
  unfold download_file. destruct (aws_available self); run.
  - destruct (parse_s3_url s3_url) as [[bucket key]|e] eqn:Hparse; simpl.
    + unfold makedirs.
      destruct (os_path_dirname local_path) as [|c d] eqn:Hdir; run.
      { eexists _, _, _. split; [reflexivity|]. split; [reflexivity|].
        do 4 (split; [done|]). by intros. }
      destruct (os_makedirs (String c d) (world s)) as [[[]|e] w1] eqn:Hmk; simpl.
      2:{ eexists _, _, _. split; [reflexivity|]. tidy_log.
          split; [reflexivity|]. split; [done|].
          split; [intros _ _ _; by eexists|]. do 2 (split; [done|]).
          intros; congruence. }
      destruct (s3_download_file bucket key local_path w1) as [[[]|e] w2] eqn:Hdl;
        simpl.
      2:{ eexists _, _, _. split; [reflexivity|]. tidy_log.
          split; [reflexivity|]. split; [done|].
          split; [intros _ _ _; by eexists|]. do 2 (split; [done|]).
          intros; congruence. }
      destruct (os_path_exists local_path w2) eqn:Hfound; simpl.
      * destruct (os_path_getsize local_path w2) as [size|e] eqn:Hsize; simpl.
        -- eexists _, _, _. split; [reflexivity|]. tidy_log.
           split; [reflexivity|]. split; [done|].
           split; [intros _ _ _; by eexists|].
           split; [|split].
           ++ intros _. exists bucket, key. repeat split; try done.
              simpl. tauto.
           ++ simpl. by rewrite Hfound.
           ++ intros b k w1' w2' size' _ [= <- <-] _ Hmk' Hdl' _ _.
              injection Hmk' as <-.
              rewrite Hdl in Hdl'. by injection Hdl' as <-.
        -- eexists _, _, _. split; [reflexivity|]. tidy_log.
           split; [reflexivity|]. split; [done|].
           split; [intros _ _ _; by eexists|]. do 2 (split; [done|]).
           intros; congruence.
      * eexists _, _, _. split; [reflexivity|]. tidy_log.
        split; [reflexivity|]. split; [done|].
        split; [intros _ _ _; by eexists|]. do 2 (split; [done|]).
        intros; congruence.
    + eexists _, _, _. split; [reflexivity|]. split; [reflexivity|].
      do 4 (split; [done|]). by intros.
  - eexists _, _, _. split; [reflexivity|]. split; [reflexivity|].
    do 4 (split; [done|]). by intros.
Qed.

End Methods.

Lemma upload_directory_tolerates_failures_witness :
  aws_available (Handler true) = true /\
  parse_s3_url "s3://bucket/run1" = Ok ("bucket", "run1") /\
  exists (s' : state script),
    upload_directory (Handler true) "out" "s3://bucket/run1" (start three_files)
    = (Ok true, s') /\
    length (failed (log s')) = 1%nat /\
    uploaded (log s') = 3 - 1.
Proof.
  split; [reflexivity|]. split; [reflexivity|].
  destruct (upload_directory_tolerates_failures
              (Handler true) "out" "s3://bucket/run1" (start three_files))
    as (ok & s' & evs & Hrun & Hlog & Hiff & Hdetail).
  destruct (Hdetail eq_refl "bucket" "run1" eq_refl) as (_ & _ & _ & _ & Hone).
  simpl in Hlog. subst evs.
  assert (Hs' : s' = snd (upload_directory (Handler true) "out" "s3://bucket/run1"
                            (start three_files))) by (by rewrite Hrun).
  assert (Hfailed : length (failed (log s')) = 1%nat) by (by rewrite Hs').
  destruct (Hone Hfailed) as [Hcount Hok].
  exists s'. split; [|split; [exact Hfailed|exact Hcount]].
  rewrite Hrun. do 2 f_equal. apply Hok. reflexivity.
Defined.

Lemma download_file_checks_credentials_and_presence_witness :
  aws_available (Handler false) = false /\
  fst (download_file (Handler false) "s3://bucket/clip.mp4" "/data/clip.mp4"
         (start quiet)) = Ok false /\
  os_path_dirname "/data/clip.mp4" <> EmptyString /\
  os_path_exists "/data/clip.mp4" zero_byte = true /\
  os_path_getsize "/data/clip.mp4" zero_byte = Ok 0 /\
  fst (download_file (Handler true) "s3://bucket/clip.mp4" "/data/clip.mp4"
         (start zero_byte)) = Ok true.
Proof.
  split; [reflexivity|]. split.
  - destruct (download_file_checks_credentials_and_presence
                (Handler false) "s3://bucket/clip.mp4" "/data/clip.mp4" (start quiet))
      as (ok & s' & evs & Hrun & _ & Hnocred & _).
    rewrite Hrun. simpl. f_equal. apply Hnocred. reflexivity.
  - assert (Hdir : os_path_dirname "/data/clip.mp4" <> EmptyString) by done.
    split; [exact Hdir|]. split; [reflexivity|]. split; [reflexivity|].
    destruct (download_file_checks_credentials_and_presence
                (Handler true) "s3://bucket/clip.mp4" "/data/clip.mp4"
                (start zero_byte))
      as (ok & s' & evs & Hrun & _ & _ & _ & _ & _ & Hsuccess).
    rewrite Hrun. simpl. f_equal.
    apply (Hsuccess "bucket" "clip.mp4" zero_byte zero_byte 0); done.
Defined.

(** C5 (the claim as stated fails).  The transfer completes and leaves a
    file of zero bytes at the local path; [download_file] reports
    success. *)
Lemma download_file_accepts_zero_bytes :
  os_path_getsize "/data/clip.mp4" zero_byte = Ok 0 /\
  fst (download_file (Handler true) "s3://bucket/clip.mp4" "/data/clip.mp4"
         (start zero_byte)) = Ok true.
Proof. split; reflexivity. Qed.

Lemma check_file_exists_catches_client_errors_witness :
  aws_available (Handler true) = true /\
  parse_s3_url "s3://bucket/clip.mp4" = Ok ("bucket", "clip.mp4") /\
  fst (check_file_exists (Handler true) "s3://bucket/clip.mp4" (start not_found))
  = Ok false /\
  fst (check_file_exists (Handler true) "s3://bucket/clip.mp4" (start quiet))
  = Ok true.
Proof.
  split; [reflexivity|]. split; [reflexivity|]. split.
  - destruct (check_file_exists_catches_client_errors
                (Handler true) "s3://bucket/clip.mp4" (start not_found))
      as (r & s' & Hrun & _ & Hexact & _).
    rewrite Hrun. simpl.
    destruct (Hexact eq_refl) as [_ Hhead].
    destruct (Hhead "bucket" "clip.mp4" eq_refl) as [_ Hraise].
    by apply (Hraise (Exn ClientError
      "An error occurred (404) when calling the HeadObject operation: Not Found")).
  - destruct (check_file_exists_catches_client_errors
                (Handler true) "s3://bucket/clip.mp4" (start quiet))
      as (r & s' & Hrun & _ & Hexact & _).
    rewrite Hrun. simpl.
    destruct (Hexact eq_refl) as [_ Hhead].
    by apply (Hhead "bucket" "clip.mp4" eq_refl).
Defined.

(** C6 (the claim as stated fails).  With a client that holds credentials,
    an unreachable endpoint makes HEAD raise an error that is not a
    ClientError, and a text without the scheme makes the parser raise
    ValueError; [check_file_exists] raises both to its caller instead of
    returning False. *)
Lemma check_file_exists_raises :
  fst (check_file_exists (Handler true) "s3://bucket/clip.mp4" (start unreachable))
  = Raise (Exn BotoCoreError "Could not connect to the endpoint URL") /\
  fst (check_file_exists (Handler true) "bucket/clip.mp4" (start quiet))
  = Raise (Exn ValueError "S3 URL must start with 's3://'").
Proof. split; reflexivity. Qed.

End S3HandlerProofs.

(** ** Media adapter *)

Module VideoProcessorProofs.
Import Steps VideoProcessor Scenarios Scripted.

Section Methods.
Context {W : Type} `{World W} `{PyLib}.

(** C3.  [create_video] always returns a bool.  When the frame directory
    holds no file named '*.png' (an empty directory in particular) or
    cannot be listed, it returns False, starts no tool and leaves the world
    as it was.  It returns True only if the codec tool was run with the
    command of lines 78-86, exited with code 0, and the output file exists
    afterwards; when the output file is missing after the run the result
    is False, whatever the exit code. *)
Theorem create_video_checks_frames_and_output
    (frames_dir output_path : string) (fps : Z) (codec : string) (s : state W) :
  exists (ok : bool) (s' : state W) (evs : list event),
    create_video frames_dir output_path fps codec s = (Ok ok, s') /\
    log s' = log s ++ evs /\
    ((forall names, os_listdir frames_dir (world s) = Ok names -> png_files names = []) ->
       ok = false /\ tool_runs evs = [] /\ world s' = world s) /\
    (ok = true ->
       exists res,
         tool_runs evs = [create_cmd frames_dir output_path fps codec] /\
         In (ERun (create_cmd frames_dir output_path fps codec) (Ok res)) evs /\
         returncode res = 0 /\
         os_path_exists output_path (world s') = true) /\
    (os_path_exists output_path (world s') = false -> ok = false).
Proof.
  unfold create_video. run.
  destruct (os_listdir frames_dir (world s)) as [names|e] eqn:Hls; simpl.
  2:{ name_run s. split; [reflexivity|]. split; [reflexivity|].
      repeat split; done. }
  destruct (sorted (png_files names)) as [|f fs] eqn:Hsorted.
  { run. name_run s. split; [reflexivity|]. split; [reflexivity|].
    repeat split; done. }
  assert (Hne : png_files names <> []).
  { intros Hnil. apply sorted_nil in Hnil. congruence. }
  run.
  destruct (subprocess_run _ (world s)) as [[res|e] w1] eqn:Hrun; simpl.
  2:{ name_run s. split; [reflexivity|]. split; [reflexivity|].
      split; [intros Hempty; by destruct Hne; apply Hempty|].
      repeat split; done. }
  destruct (returncode res =? 0) eqn:Hrc; simpl.
  2:{ name_run s. split; [reflexivity|]. split; [reflexivity|].
      split; [intros Hempty; by destruct Hne; apply Hempty|].
      repeat split; done. }
  apply Z.eqb_eq in Hrc.
  destruct (os_path_exists output_path w1) eqn:Hfound; simpl.
  2:{ name_run s. split; [reflexivity|]. split; [reflexivity|].
      split; [intros Hempty; by destruct Hne; apply Hempty|].
      repeat split; done. }
  destruct (os_path_getsize output_path w1) as [size|e]; simpl.
  2:{ name_run s. split; [reflexivity|]. split; [reflexivity|].
      split; [intros Hempty; by destruct Hne; apply Hempty|].
      repeat split; done. }
  name_run s. split; [reflexivity|]. split; [reflexivity|].
  split; [intros Hempty; by destruct Hne; apply Hempty|].
  split; [|simpl; by rewrite Hfound].
  intros _. exists res. repeat split; try done. simpl. tauto.
Qed.

(** [get_video_info] always returns, and the one tool it runs is ffprobe. *)
Lemma get_video_info_returns (video_path : string) (s : state W) :
  exists (info : option video_info) (s' : state W) (evs : list event),
    get_video_info video_path s = (Ok info, s') /\
    log s' = log s ++ evs /\
    tool_runs evs = [["ffprobe"; "-v"; "quiet"; "-print_format"; "json";
                      "-show_format"; "-show_streams"; video_path]].
Proof.
  unfold get_video_info. run.
  destruct (subprocess_run _ (world s)) as [[res|e] w1]; simpl.
  2:{ name_run s. by repeat split. }
  destruct (returncode res =? 0); simpl.
  2:{ name_run s. by repeat split. }
  repeat (case_match; simplify_eq/=); name_run s; by repeat split.
Qed.

(** A probe whose streams hold no video stream gives no video info. *)
Lemma get_video_info_without_video_stream
    (video_path : string) (s : state W) res w1 data streams items :
  subprocess_run ["ffprobe"; "-v"; "quiet"; "-print_format"; "json";
                  "-show_format"; "-show_streams"; video_path] (world s)
  = (Ok res, w1) ->
  returncode res = 0 ->
  json_loads (stdout res) = Ok data ->
  json_get "streams" data = Ok streams ->
  json_iter streams = Ok items ->
  find_video_stream items = Ok None ->
  fst (get_video_info video_path s) = Ok None.
Proof.
  intros Hrun Hrc Hdata Hstreams Hiter Hfind.
  unfold get_video_info. run.
  rewrite Hrun. simpl. rewrite Hrc. simpl.
  rewrite Hdata. simpl. unfold mbind, result_bind. simpl.
  rewrite Hstreams. simpl. rewrite Hiter. simpl. by rewrite Hfind.
Qed.

(** Part of C1 that holds: without video info [extract_frames] returns
    False right after the probe; it has created the output directory and
    run ffprobe, and it never starts FFmpeg. *)
Lemma extract_frames_without_video_stream
    (video_path output_dir : string) (target_fps : option Z) (s s1 : state W) w1 :
  output_dir <> EmptyString ->
  os_makedirs output_dir (world s) = (Ok tt, w1) ->
  get_video_info video_path (State w1 (log s ++ [EMakedirs output_dir])) = (Ok None, s1) ->
  extract_frames video_path output_dir target_fps s = (Ok false, s1) /\
  tool_runs (log s1)
  = tool_runs (log s) ++ [["ffprobe"; "-v"; "quiet"; "-print_format"; "json";
                           "-show_format"; "-show_streams"; video_path]].
Proof.
  intros Hdir Hmk Hinfo. split.
  - unfold extract_frames, makedirs.
    destruct output_dir as [|c d]; [done|].
    unfold try_except, mbind, M_bind, Sys.bind at 1, Sys.bind at 1, emit.
    simpl. rewrite Hmk. unfold Sys.bind at 1. by rewrite Hinfo.
  - destruct (get_video_info_returns video_path
                (State w1 (log s ++ [EMakedirs output_dir])))
      as (info & s' & evs & Hrun & Hlog & Htools).
    rewrite Hinfo in Hrun. injection Hrun as <- <-.
    rewrite Hlog. simpl. by rewrite !tool_runs_app, Htools, app_nil_r.
Qed.

(** Part of C1 that holds: when FFmpeg exits with a code other than 0,
    [extract_frames] returns False. *)
Lemma extract_frames_nonzero_exit
    (video_path output_dir : string) (target_fps : option Z)
    (s s1 : state W) w1 info res w2 :
  output_dir <> EmptyString ->
  os_makedirs output_dir (world s) = (Ok tt, w1) ->
  get_video_info video_path (State w1 (log s ++ [EMakedirs output_dir]))
  = (Ok (Some info), s1) ->
  subprocess_run (extract_cmd video_path output_dir target_fps) (world s1)
  = (Ok res, w2) ->
  returncode res <> 0 ->
  fst (extract_frames video_path output_dir target_fps s) = Ok false.
Proof.
  intros Hdir Hmk Hinfo Hrun Hrc.
  unfold extract_frames, makedirs.
  destruct output_dir as [|c d]; [done|].
  unfold try_except, mbind, M_bind, Sys.bind at 1, Sys.bind at 1, emit.
  simpl. rewrite Hmk. unfold Sys.bind at 1. rewrite Hinfo.
  run. rewrite Hrun. simpl.
  apply Z.eqb_neq in Hrc. by rewrite Hrc.
Qed.

End Methods.

Lemma create_video_checks_frames_and_output_witness :
  (forall names, os_listdir "frames" quiet = Ok names -> png_files names = []) /\
  fst (create_video "frames" "out.mp4" 30 "libx264" (start quiet)) = Ok false /\
  os_path_exists "out.mp4" two_frames = false /\
  fst (create_video "frames" "out.mp4" 30 "libx264" (start two_frames)) = Ok false.
Proof.
  assert (Hempty : forall names,
             os_listdir "frames" quiet = Ok names -> png_files names = []).
  { by intros names [= <-]. }
  split; [exact Hempty|]. split.
  - destruct (create_video_checks_frames_and_output
                "frames" "out.mp4" 30 "libx264" (start quiet))
      as (ok & s' & evs & Hrun & _ & Hnone & _).
    rewrite Hrun. simpl. f_equal. by apply Hnone.
  - split; [reflexivity|].
    destruct (create_video_checks_frames_and_output
                "frames" "out.mp4" 30 "libx264" (start two_frames))
      as (ok & s' & evs & Hrun & _ & _ & _ & Hmissing).
    assert (Hs' : s' = snd (create_video "frames" "out.mp4" 30 "libx264"
                              (start two_frames))) by (by rewrite Hrun).
    rewrite Hrun. simpl. f_equal. apply Hmissing. by rewrite Hs'.
Defined.

(** C1 (the code departs from the claim).  The source has a video stream
    and FFmpeg exits with code 0 without writing a frame, so the output
    directory is empty after the run.  [extract_frames] counts zero frames,
    prints the count and returns True, where the claim has it report
    failure. *)
Theorem extract_frames_accepts_empty_output :
  let run := extract_frames "in.mp4" "frames" None (start quiet) in
  fst run = Ok true /\
  os_listdir "frames" (world (snd run)) = Ok [] /\
  In (EPrint [PStr "✅ Extracted "; PInt 0; PStr " frames successfully"])
     (log (snd run)).
Proof. vm_compute. repeat split. tauto. Qed.

(** The part of C1 on a source without video stream, on a concrete run:
    failure, the output directory created, ffprobe run, FFmpeg not run. *)
Lemma extract_frames_audio_only :
  let run := extract_frames "in.mp4" "frames" None (start audio_only) in
  fst run = Ok false /\
  log (snd run)
  = [EMakedirs "frames";
     ERun ["ffprobe"; "-v"; "quiet"; "-print_format"; "json";
           "-show_format"; "-show_streams"; "in.mp4"]
          (Ok (Completed 0 "audio" EmptyString))].
Proof. split; reflexivity. Qed.

End VideoProcessorProofs.

(** ** Masks and the synthetic corpus *)

Module PipelineProofs.
Import Steps VideoProcessor Pipeline Scenarios Scripted.

(** *** Shapes and pixels *)

Lemma has_shape_imap2 {A B} (f : nat -> nat -> A -> B) (img : list (list A)) rows cols :
  has_shape img rows cols ->
  has_shape (imap (fun y row => imap (f y) row) img) rows cols.
Proof.
  intros [Hrows Hcols]. split; [by rewrite length_imap|].
  apply Forall_lookup. intros y row Hrow.
  rewrite list_lookup_imap in Hrow.
  destruct (img !! y) as [row0|] eqn:Hrow0; simplify_eq/=.
  rewrite length_imap. by eapply (Forall_lookup_1 _ _ _ _ Hcols).
Qed.

Lemma has_shape_paint {A} covers (color : A) img rows cols :
  has_shape img rows cols -> has_shape (paint covers color img) rows cols.
Proof.
  apply (has_shape_imap2 (fun y x v => if covers (Z.of_nat x) (Z.of_nat y) then color else v)).
Qed.

Lemma has_shape_replicate {A} (v : A) rows cols :
  0 <= rows -> 0 <= cols ->
  has_shape (replicate (Z.to_nat rows) (replicate (Z.to_nat cols) v)) rows cols.
Proof.
  intros Hr Hc. split; [rewrite length_replicate; lia|].
  apply Forall_replicate. rewrite length_replicate. lia.
Qed.

Lemma pixel_paint_zeros covers rows cols x y :
  0 <= x < cols -> 0 <= y < rows ->
  pixel (paint covers 255 (np_zeros rows cols)) x y
  = Some (if covers x y then 255 else 0).
Proof.
  intros Hx Hy. unfold pixel, paint, np_zeros.
  replace (x <? 0) with false by lia. replace (y <? 0) with false by lia.
  simpl. rewrite list_lookup_imap.
  rewrite lookup_replicate_2 by lia. simpl.
  rewrite list_lookup_imap.
  rewrite lookup_replicate_2 by lia. simpl.
  by rewrite !Z2Nat.id by lia.
Qed.

Lemma between_ordered a b x : a < b -> between a b x = (a <=? x) && (x <=? b).
Proof. intros Hab. unfold between. by rewrite Z.min_l, Z.max_r by lia. Qed.

(** The pixels of a mask, for a region given by its two corners in
    order. *)
Lemma subtitle_mask_pixel (width height x1 y1 x2 y2 x y : Z) :
  x1 < x2 -> y1 < y2 ->
  0 <= x < width -> 0 <= y < height ->
  pixel (subtitle_mask (height, width) (x1, y1, x2, y2)) x y
  = Some (if filled (x1, y1, x2, y2) x y then 255 else 0).
Proof.
  intros Hx Hy Hpx Hpy. unfold subtitle_mask, cv2_rectangle, filled. simpl.
  rewrite pixel_paint_zeros by done.
  rewrite !between_ordered by lia. by rewrite andb_assoc.
Qed.

Section Generators.
Context {W : Type} `{World W} `{Raster} {F : Type} `{Floats F}.

Lemma synthetic_frame_shape (cfg : config) (i : Z) :
  0 <= fst (frame_size cfg) -> 0 <= snd (frame_size cfg) ->
  has_shape (synthetic_frame cfg i) (fst (frame_size cfg)) (snd (frame_size cfg)).
Proof.
  intros Hr Hc. unfold synthetic_frame, cv2_putText, cv2_circle, cv2_rectangle.
  repeat apply has_shape_paint.
  apply (has_shape_imap2 (fun y x _ => gradient_pixel _ (Z.of_nat x) (Z.of_nat y))).
  by apply has_shape_replicate.
Qed.

Lemma test_frame_shape (cfg : config) (i : Z) :
  0 <= fst (frame_size cfg) -> 0 <= snd (frame_size cfg) ->
  has_shape (test_frame cfg i) (fst (frame_size cfg)) (snd (frame_size cfg)).
Proof.
  intros Hr Hc. unfold test_frame, cv2_putText.
  repeat apply has_shape_paint.
  apply (has_shape_imap2
           (fun y _ _ => (uint8 (255 - Z.of_nat y / 3), uint8 (200 + Z.of_nat y / 8),
                          uint8 (180 + Z.of_nat y / 4)))).
  by apply has_shape_replicate.
Qed.

(** *** Determinism *)

Lemma generate_synthetic_data_emits (cfg : config) :
  emits (generate_synthetic_data_with cfg) (synthetic_events cfg) cfg.
Proof.
  unfold generate_synthetic_data_with, synthetic_events, mbind, mret, M_bind, M_ret.
  eapply emits_bind.
  { apply emits_for_each. intros dir_path.
    eapply (emits_bind _ _ [_] [_]); [apply emits_makedirs|apply emits_print]. }
  eapply (emits_bind _ _ [_]); [apply emits_print|].
  eapply emits_bind.
  { apply emits_for_each. intros i. unfold synthetic_step.
    eapply (emits_bind _ _ [_] [_]); apply emits_imwrite. }
  eapply (emits_bind _ _ [_] [_; _]); [apply emits_print|].
  eapply (emits_bind _ _ [_] [_]); [apply emits_print|].
  eapply (emits_bind _ _ [_] []); [apply emits_print|apply emits_ret].
Qed.

Lemma generate_test_data_emits (cfg : config) :
  emits (generate_test_data_with cfg) (test_events cfg) cfg.
Proof.
  unfold generate_test_data_with, test_events, mbind, mret, M_bind, M_ret.
  eapply emits_bind.
  { apply emits_for_each. intros dir_path.
    eapply (emits_bind _ _ [_] [_]); [apply emits_makedirs|apply emits_print]. }
  eapply (emits_bind _ _ [_]); [apply emits_print|].
  eapply emits_bind.
  { apply emits_for_each. intros i. unfold test_step.
    eapply (emits_bind _ _ [_] [_]); apply emits_imwrite. }
  eapply (emits_bind _ _ [_] [_; _]); [apply emits_print|].
  eapply (emits_bind _ _ [_] [_]); [apply emits_print|].
  eapply (emits_bind _ _ [_] []); [apply emits_print|apply emits_ret].
Qed.

Lemma written_synthetic_events (cfg : config) :
  written (synthetic_events cfg) = synthetic_corpus cfg.
Proof.
  unfold synthetic_events, synthetic_corpus.
  rewrite !written_app. simpl. rewrite app_nil_r.
  by apply written_flat_map.
Qed.

Lemma written_test_events (cfg : config) :
  written (test_events cfg) = test_corpus cfg.
Proof.
  unfold test_events, test_corpus.
  rewrite !written_app. simpl.
  rewrite (written_flat_map _ (fun _ => [])) by done.
  rewrite flat_map_nil, app_nil_r. simpl.
  by apply written_flat_map.
Qed.

(** C9.  Take any two runs of a generator with the same config
    (frame_count, frame_size, subtitle_region and the directory names),
    started in any two worlds with any two histories.  If both return,
    they return the same config and add the same events to the log, and
    the files they write, paths and pixel arrays in order, are the corpus
    that is a function of the config alone.  This holds for
    [generate_synthetic_data] (docker) and for [generate_test_data]
    (notebook). *)
Theorem corpus_generation_deterministic (cfg : config) (s1 s2 : state W) :
  (forall r1 r2 s1' s2',
     generate_synthetic_data_with cfg s1 = (Ok r1, s1') ->
     generate_synthetic_data_with cfg s2 = (Ok r2, s2') ->
     r1 = r2 /\
     exists evs, log s1' = log s1 ++ evs /\ log s2' = log s2 ++ evs /\
                 written evs = synthetic_corpus cfg) /\
  (forall r1 r2 s1' s2',
     generate_test_data_with cfg s1 = (Ok r1, s1') ->
     generate_test_data_with cfg s2 = (Ok r2, s2') ->
     r1 = r2 /\
     exists evs, log s1' = log s1 ++ evs /\ log s2' = log s2 ++ evs /\
                 written evs = test_corpus cfg).
Proof.
  split; intros r1 r2 s1' s2' Hrun1 Hrun2.
  - destruct (generate_synthetic_data_emits cfg _ _ _ Hrun1) as [-> Hlog1].
    destruct (generate_synthetic_data_emits cfg _ _ _ Hrun2) as [-> Hlog2].
    split; [done|]. exists (synthetic_events cfg).
    split; [done|]. split; [done|]. apply written_synthetic_events.
  - destruct (generate_test_data_emits cfg _ _ _ Hrun1) as [-> Hlog1].
    destruct (generate_test_data_emits cfg _ _ _ Hrun2) as [-> Hlog2].
    split; [done|]. exists (test_events cfg).
    split; [done|]. split; [done|]. apply written_test_events.
Qed.

End Generators.

Lemma corpus_generation_deterministic_witness :
  let run1 := generate_test_data_with small_config (start quiet) in
  let run2 := generate_test_data_with small_config
                (State used [EPrint [PStr "earlier"]]) in
  is_ok (fst run1) = true /\
  is_ok (fst run2) = true /\
  written (log (snd run1)) = written (log (snd run2)).
Proof.
  intros run1 run2.
  assert (Hok1 : is_ok (fst run1) = true) by (vm_compute; reflexivity).
  assert (Hok2 : is_ok (fst run2) = true) by (vm_compute; reflexivity).
  split; [exact Hok1|]. split; [exact Hok2|].
  destruct run1 as [[r1|e1] s1'] eqn:Hrun1; [|discriminate].
  destruct run2 as [[r2|e2] s2'] eqn:Hrun2; [|discriminate].
  destruct (corpus_generation_deterministic (F:=Z) small_config
              (start quiet) (State used [EPrint [PStr "earlier"]])) as [_ Hdet].
  destruct (Hdet r1 r2 s1' s2' Hrun1 Hrun2) as (_ & evs & Hlog1 & Hlog2 & _).
  cbn [snd]. rewrite Hlog1, Hlog2, !written_app. reflexivity.
Defined.

(** The default region of [generate_subtitle_masks] reaches past the last
    row and column; nothing is drawn outside the array, and the mask is
    the bottom 51 rows over the full width. *)
Lemma default_mask_is_bottom_band (x y : Z) :
  0 <= x < 256 -> 0 <= y < 256 ->
  pixel (subtitle_mask (256, 256) default_subtitle_region) x y
  = Some (if 205 <=? y then 255 else 0).
Proof.
  intros Hx Hy.
  unfold default_subtitle_region. rewrite subtitle_mask_pixel by lia.
  unfold filled. replace (0 <=? x) with true by lia.
  replace (x <=? 256) with true by lia. replace (y <=? 256) with true by lia.
  simpl. by rewrite andb_true_r.
Qed.

(** The frames [extract_frames] asks FFmpeg for have the size of the masks
    [generate_subtitle_masks] builds, 256 by 256. *)
Lemma extract_cmd_scale video_path output_dir target_fps :
  In "scale=256:256" (extract_cmd video_path output_dir target_fps).
Proof.
  unfold extract_cmd. destruct target_fps as [r|]; [|simpl; tauto].
  destruct (r =? 0); simpl; tauto.
Qed.

End PipelineProofs.

(** ** Properties of capability detection *)

Module GpuDetectorProofs.
Import GpuDetector.

Lemma detect_gpu_unavailable torch :
  is_available torch = false -> detect_gpu torch = Ok cpu_profile.
Proof.
  intros Hna. unfold detect_gpu. rewrite Hna. reflexivity.
Qed.

(** C7 as amended.  In every runtime whose availability query answers
    "no" (the accelerator is absent, or torch could not query it),
    [detect_gpu] returns, it does not raise, and the profile it returns has
    gpu_available = False, device = 'cpu', download_weights = False; no
    further query is consulted.  [detect_gpu] raises exactly when the
    availability query answers "yes" and the device count, the device name
    or the device properties cannot be read, the first of them in that
    order; the exception of that query reaches the caller. *)
Theorem detect_gpu_fails_only_with_accelerator (torch : torch_cuda) :
  (is_available torch = false ->
   exists config,
     detect_gpu torch = Ok config /\
     config = cpu_profile /\
     config !! "gpu_available" = Some (VBool false) /\
     config !! "device" = Some (VStr "cpu") /\
     config !! "download_weights" = Some (VBool false)) /\
  (forall e,
     detect_gpu torch = Raise e <->
     is_available torch = true /\
     (device_count torch = Raise e \/
      (is_ok (device_count torch) = true /\ get_device_name torch 0 = Raise e) \/
      (is_ok (device_count torch) = true /\ is_ok (get_device_name torch 0) = true /\
       total_memory torch 0 = Raise e))).
Proof.
  split.
  - intros Hna. exists cpu_profile.
    split; [by apply detect_gpu_unavailable|].
    split; [done|]. by vm_compute.
  - intros e. unfold detect_gpu.
    destruct (is_available torch); simpl.
    2:{ split; [done|]. by intros [? _]. }
    destruct (device_count torch) as [n|e1]; simpl.
    2:{ split.
        - intros [= <-]. split; [done|]. by left.
        - intros [_ [Hc|[[? _]|[? _]]]]; by simplify_eq/=. }
    destruct (get_device_name torch 0) as [name|e2]; simpl.
    2:{ split.
        - intros [= <-]. split; [done|]. right. by left.
        - intros [_ [?|[[_ Hn]|[_ [? _]]]]]; by simplify_eq/=. }
    destruct (total_memory torch 0) as [mem|e3]; simpl.
    + split; [done|]. intros [_ [?|[[_ ?]|[_ [_ ?]]]]]; by simplify_eq/=.
    + split.
      * intros [= <-]. split; [done|]. right. by right.
      * intros [_ [?|[[_ ?]|[_ [_ Hm]]]]]; by simplify_eq/=.
Qed.

Lemma detect_gpu_fails_only_with_accelerator_witness :
  is_available no_gpu = false /\
  detect_gpu no_gpu = Ok cpu_profile /\
  is_available nameless_gpu = true /\
  detect_gpu nameless_gpu = Raise (Exn RuntimeError "CUDA error: unknown error").
Proof.
  split; [reflexivity|]. split.
  - destruct (detect_gpu_fails_only_with_accelerator no_gpu) as [Hcpu _].
    destruct (Hcpu eq_refl) as (config & Hrun & -> & _). exact Hrun.
  - split; [reflexivity|].
    destruct (detect_gpu_fails_only_with_accelerator nameless_gpu) as [_ Hraise].
    apply Hraise. split; [reflexivity|]. right. left. by split.
Defined.

(** C7 (the claim as stated fails).  The runtime reports an accelerator
    and the query for its name fails; [detect_gpu] has no handler and
    raises, where the claim has it return the CPU profile. *)
Lemma detect_gpu_raises_on_failing_query :
  is_available nameless_gpu = true /\
  get_device_name nameless_gpu 0 = Raise (Exn RuntimeError "CUDA error: unknown error") /\
  detect_gpu nameless_gpu = Raise (Exn RuntimeError "CUDA error: unknown error").
Proof. repeat split. Qed.

(** C10.  Every profile [detect_gpu] returns is internally consistent:
    device is 'cuda' exactly when gpu_available is True (and 'cpu'
    otherwise), download_weights equals gpu_available, gpu_count is 0
    whenever gpu_available is False, and the keys gpu_name and gpu_memory
    are present exactly when gpu_available is True. *)
Theorem detect_gpu_consistent (torch : torch_cuda) (config : gmap string value) :
  detect_gpu torch = Ok config -> consistent config.
Proof.
  unfold detect_gpu. destruct (is_available torch) eqn:Hav.
  - destruct (device_count torch) as [n|e]; simpl; [|discriminate].
    destruct (get_device_name torch 0) as [name|e]; simpl; [|discriminate].
    destruct (total_memory torch 0) as [mem|e]; simpl; [|discriminate].
    intros [= <-]. exists true, n, "cuda".
    repeat split; try done; try (intros _; eexists; by vm_compute).
  - simpl. intros [= <-]. exists false, 0, "cpu".
    repeat split; try done; intros [v Hv]; by vm_compute in Hv.
Qed.

Lemma detect_gpu_consistent_witness :
  exists config, detect_gpu one_gpu = Ok config /\ consistent config.
Proof.
  eexists. split; [reflexivity|].
  apply (detect_gpu_consistent one_gpu). reflexivity.
Defined.

End GpuDetectorProofs.

(** ** Further properties of the storage staging client *)

Module S3HandlerFacts.
Import Steps S3Handler Scenarios Scripted S3HandlerProofs.

(** [parse_s3_url] raises nothing but ValueError, and it fails exactly when
    the text lacks the prefix 's3://' or has no slash after the prefix. *)
Theorem parse_s3_url_rejects (s3_url : string) :
  (forall e, parse_s3_url s3_url = Raise e -> exn_cls e = ValueError) /\
  (is_ok (parse_s3_url s3_url) = false <->
   startswith s3_url "s3://" = false \/
   forall a b, str_drop 5 s3_url <> a +:+ "/" +:+ b).
Proof.
  unfold parse_s3_url. cbv zeta.
  remember (str_drop 5 s3_url) as path eqn:Hpath.
  destruct (startswith s3_url "s3://") eqn:Hp; simpl.
  2:{ split; [by intros e [= <-]|]. split; [by left|done]. }
  destruct (split_once_cases "/" path)
    as [[-> Hno]|(a & b & -> & Hab & Hno)]; simpl.
  - split; [by intros e [= <-]|]. split; [by right|done].
  - split; [done|]. split; [done|].
    intros [?|Habs]; [done|]. by destruct (Habs a b).
Qed.

Section Methods.
Context {W : Type} `{World W}.

(** Construction fails soft: the client sends one request, list_buckets;
    when it succeeds the handler is available, when it raises
    NoCredentialsError or ClientError the handler is built unavailable, and
    any other exception leaves the constructor. *)
Theorem init_fails_soft (s : state W) :
  exists (r : result handler) (s' : state W) (evs : list event),
    init s = (r, s') /\
    log s' = log s ++ evs /\
    network_calls evs = [EListBuckets (fst (s3_list_buckets (world s)))] /\
    (fst (s3_list_buckets (world s)) = Ok tt -> r = Ok (Handler true)) /\
    (forall e, fst (s3_list_buckets (world s)) = Raise e ->
       (exn_cls e = NoCredentialsError \/ exn_cls e = ClientError ->
        r = Ok (Handler false)) /\
       (exn_cls e <> NoCredentialsError -> exn_cls e <> ClientError ->
        r = Raise e)).
Proof.
  unfold init. run.
  destruct (s3_list_buckets (world s)) as [[[]|e] w'] eqn:Hlb; simpl.
  - eexists _, _, _. split; [reflexivity|]. tidy_log.
    split; [reflexivity|]. by repeat split.
  - destruct (exn_cls e) eqn:Hcls; simpl;
      (eexists _, _, _; split; [reflexivity|]; tidy_log;
       split; [reflexivity|]; split; [reflexivity|]; split; [done|];
       intros e' [= <-]; rewrite Hcls; split; [intros [?|?]|intros ? ?];
       done).
Qed.

(** [upload_file] always returns a bool.  It returns False without sending
    anything when the local file does not exist, and True only with
    credentials, a well-formed locator, an existing local file and one
    upload request, for that file and that bucket and key, that did not
    raise. *)
Theorem upload_file_contract (self : handler) (local_path s3_url : string)
    (s : state W) :
  exists (ok : bool) (s' : state W) (evs : list event),
    upload_file self local_path s3_url s = (Ok ok, s') /\
    log s' = log s ++ evs /\
    (os_path_exists local_path (world s) = false ->
       ok = false /\ network_calls evs = [] /\ world s' = world s) /\
    (ok = true ->
       aws_available self = true /\
       os_path_exists local_path (world s) = true /\
       exists bucket key,
         parse_s3_url s3_url = Ok (bucket, key) /\
         network_calls evs = [EUpload local_path bucket key (Ok tt)]).
Proof.
  unfold upload_file. destruct (aws_available self); run.
  2:{ name_run s. split; [reflexivity|]. split; [reflexivity|]. by repeat split. }
  destruct (parse_s3_url s3_url) as [[bucket key]|e]; simpl.
  2:{ name_run s. split; [reflexivity|]. split; [reflexivity|]. by repeat split. }
  destruct (os_path_exists local_path (world s)) eqn:Hfound; simpl.
  2:{ name_run s. split; [reflexivity|]. split; [reflexivity|]. by repeat split. }
  destruct (os_path_getsize local_path (world s)) as [size|e]; simpl.
  2:{ name_run s. split; [reflexivity|]. split; [reflexivity|]. by repeat split. }
  destruct (s3_upload_file local_path bucket key (world s)) as [[[]|e] w']; simpl.
  - name_run s. split; [reflexivity|]. split; [reflexivity|].
    split; [done|]. intros _. split; [done|]. split; [done|].
    by exists bucket, key.
  - name_run s. split; [reflexivity|]. split; [reflexivity|]. by repeat split.
Qed.

(** A client built without credentials is inert: when list_buckets raises
    NoCredentialsError or ClientError, the constructor returns a handler
    with which download, upload, directory upload and the existence check
    all return False, from any state, without sending a request and
    without changing the world. *)
Theorem no_credentials_disables_client `{PyLib} (s : state W) (e : exn) :
  fst (s3_list_buckets (world s)) = Raise e ->
  exn_cls e = NoCredentialsError \/ exn_cls e = ClientError ->
  exists (self : handler) (s0 : state W),
    init s = (Ok self, s0) /\
    forall (a b : string) (st : state W),
      Forall (fun run : result bool * state W =>
                fst run = Ok false /\
                world (snd run) = world st /\
                network_calls (log (snd run)) = network_calls (log st))
        [download_file self a b st; upload_file self a b st;
         upload_directory self a b st; check_file_exists self a st].
Proof.
  intros Hlb Hcls. unfold init. run.
  destruct (s3_list_buckets (world s)) as [[[]|e'] w'] eqn:Hlb'; simpl in *;
    [discriminate|]. injection Hlb as ->.
  replace (exn_class_eqb (exn_cls e) NoCredentialsError
           || (exn_class_eqb (exn_cls e) ClientError || false)) with true
    by (by destruct Hcls as [-> | ->]).
  eexists _, _. split; [reflexivity|].
  intros a b st.
  unfold download_file, upload_file, upload_directory, check_file_exists. run.
  repeat constructor; simpl; rewrite network_calls_app; simpl; by rewrite app_nil_r.
Qed.

(** A malformed locator is rejected before any input or output: with
    credentials, download, upload and directory upload return False having
    done nothing but print one line; no directory is created and no
    request is sent. *)
Theorem malformed_locator_does_nothing `{PyLib} (self : handler)
    (s3_url other : string) (s : state W) (e : exn) :
  aws_available self = true ->
  parse_s3_url s3_url = Raise e ->
  Forall (fun run : result bool * state W =>
            fst run = Ok false /\
            world (snd run) = world s /\
            exists m, log (snd run) = log s ++ [EPrint m])
    [download_file self s3_url other s; upload_file self other s3_url s;
     upload_directory self other s3_url s].
Proof.
  intros Hav Hparse.
  unfold download_file, upload_file, upload_directory. rewrite Hav. run.
  rewrite Hparse. simpl. repeat constructor; by eexists.
Qed.

Lemma replace_char_removes (old new : ascii) (s a b : string) :
  old <> new -> replace_char old new s <> a +:+ String old b.
Proof.
  intros Hne. revert a. induction s as [|c s IH]; intros [|c' a]; simpl; try done.
  - destruct (Ascii.eqb c old) eqn:Hc; intros [= ? ?]; [done|].
    by apply Ascii.eqb_neq in Hc.
  - intros [= ? Heq]. by eapply IH.
Qed.

(** Every key [upload_directory] sends is free of backslashes, and every
    request goes to the bucket of the base locator. *)
Theorem upload_keys_are_normalised `{PyLib} (self : handler)
    (local_dir s3_base_url : string) (s s' : state W) (r : result bool)
    (evs : list event) :
  upload_directory self local_dir s3_base_url s = (r, s') ->
  log s' = log s ++ evs ->
  forall f b k,
    In (f, b, k) (attempts evs) ->
    (forall x y, k <> x +:+ String "\" y) /\
    exists base_key, parse_s3_url s3_base_url = Ok (b, base_key).
Proof.
  unfold upload_directory. destruct (aws_available self); simpl.
  2:{ run. intros [= <- <-] Hlog. simpl in Hlog.
      apply app_inv_head in Hlog as <-. by intros f b k []. }
  unfold try_except, mbind, M_bind, Sys.bind at 1, lift.
  destruct (parse_s3_url s3_base_url) as [[bucket base_key]|e] eqn:Hparse.
  2:{ run. intros [= <- <-] Hlog. simpl in Hlog.
      apply app_inv_head in Hlog as <-. by intros f b k []. }
  unfold Sys.bind at 1, query. unfold Sys.bind at 1.
  destruct (upload_walk_accounts local_dir bucket base_key
              (os_walk local_dir (world s)) 0 s)
    as (s1 & evs1 & Hrun1 & Hlog1 & Hatt & _).
  rewrite Hrun1. run. intros [= <- <-] Hlog. simpl in Hlog.
  rewrite Hlog1, <- app_assoc in Hlog. apply app_inv_head in Hlog as <-.
  intros f b k Hin. rewrite attempts_app in Hin. simpl in Hin.
  rewrite app_nil_r, Hatt in Hin.
  apply in_map_iff in Hin as ([root file] & [= <- <- <-] & _).
  split; [|by exists base_key].
  intros x y. by apply replace_char_removes.
Qed.

Lemma drop_to_slash_rev_skips (p acc : string) :
  (forall a b, p <> a +:+ String "/" b) ->
  drop_to_slash_rev (str_rev_onto p acc) = drop_to_slash_rev acc.
Proof.
  revert acc. induction p as [|c p IH]; intros acc Hno; simpl; [done|].
  rewrite IH.
  - assert (c <> "/"%char) as Hc.
    { intros ->. by destruct (Hno EmptyString p). }
    destruct c as [[] [] [] [] [] [] [] []]; done.
  - intros a b ->. by destruct (Hno (String c a) b).
Qed.

Lemma dirname_without_slash (p : string) :
  (forall a b, p <> a +:+ String "/" b) -> os_path_dirname p = EmptyString.
Proof.
  intros Hno. unfold os_path_dirname.
  by rewrite drop_to_slash_rev_skips.
Qed.

(** A local path without directory part (no slash in it) cannot be
    downloaded to: [download_file] returns False, sends no request and
    leaves the world as it was. *)
Theorem download_file_bare_filename (self : handler)
    (s3_url local_path : string) (s : state W) :
  (forall a b, local_path <> a +:+ String "/" b) ->
  exists s' : state W,
    download_file self s3_url local_path s = (Ok false, s') /\
    world s' = world s /\
    network_calls (log s') = network_calls (log s).
Proof.
  intros Hno. unfold download_file. destruct (aws_available self); run.
  2:{ eexists. split; [reflexivity|]. simpl.
      by rewrite network_calls_app, app_nil_r. }
  destruct (parse_s3_url s3_url) as [[bucket key]|e]; simpl.
  2:{ eexists. split; [reflexivity|]. simpl.
      by rewrite network_calls_app, app_nil_r. }
  unfold makedirs. rewrite dirname_without_slash by done. run.
  eexists. split; [reflexivity|]. simpl.
  by rewrite network_calls_app, app_nil_r.
Qed.

End Methods.

Lemma init_fails_soft_witness :
  fst (init (start no_credentials)) = Ok (Handler false) /\
  fst (init (start quiet)) = Ok (Handler true).
Proof.
  split.
  - destruct (init_fails_soft (start no_credentials))
      as (r & s' & evs & Hrun & _ & _ & _ & Hraise).
    rewrite Hrun. simpl.
    apply (Hraise (Exn NoCredentialsError "Unable to locate credentials") eq_refl).
    by left.
  - destruct (init_fails_soft (start quiet)) as (r & s' & evs & Hrun & _ & _ & Hok & _).
    rewrite Hrun. simpl. by apply Hok.
Defined.

Lemma upload_file_contract_witness :
  os_path_exists "clip.mp4" quiet = false /\
  fst (upload_file (Handler true) "clip.mp4" "s3://bucket/clip.mp4" (start quiet))
  = Ok false /\
  fst (upload_file (Handler true) "clip.mp4" "s3://bucket/clip.mp4" (start zero_byte))
  = Ok true.
Proof.
  split; [reflexivity|]. split; [|reflexivity].
  destruct (upload_file_contract (Handler true) "clip.mp4" "s3://bucket/clip.mp4"
              (start quiet)) as (ok & s' & evs & Hrun & _ & Hmissing & _).
  rewrite Hrun. simpl. f_equal. by apply Hmissing.
Defined.

Lemma no_credentials_disables_client_witness :
  fst (s3_list_buckets (world (start no_credentials)))
  = Raise (Exn NoCredentialsError "Unable to locate credentials") /\
  exists (self : handler) (s0 : state script),
    init (start no_credentials) = (Ok self, s0) /\
    fst (upload_directory self "out" "s3://bucket/run1" s0) = Ok false.
Proof.
  assert (Hraise : fst (s3_list_buckets (world (start no_credentials)))
                   = Raise (Exn NoCredentialsError "Unable to locate credentials"))
    by reflexivity.
  split; [exact Hraise|].
  destruct (no_credentials_disables_client (start no_credentials) _
              Hraise (or_introl eq_refl)) as (self & s0 & Hinit & Hinert).
  exists self, s0. split; [exact Hinit|].
  specialize (Hinert "out" "s3://bucket/run1" s0).
  apply Forall_cons in Hinert as [_ Hinert].
  apply Forall_cons in Hinert as [_ Hinert].
  apply Forall_cons in Hinert as [[Hfalse _] _]. exact Hfalse.
Defined.

Lemma malformed_locator_does_nothing_witness :
  aws_available (Handler true) = true /\
  parse_s3_url "bucket/clip.mp4"
  = Raise (Exn ValueError "S3 URL must start with 's3://'") /\
  fst (download_file (Handler true) "bucket/clip.mp4" "/data/clip.mp4" (start quiet))
  = Ok false.
Proof.
  split; [reflexivity|]. split; [reflexivity|].
  assert (Hparse : parse_s3_url "bucket/clip.mp4"
                   = Raise (Exn ValueError "S3 URL must start with 's3://'"))
    by reflexivity.
  pose proof (malformed_locator_does_nothing (Handler true) "bucket/clip.mp4"
                "/data/clip.mp4" (start quiet) _ eq_refl Hparse) as Hall.
  apply Forall_cons in Hall as [[Hfalse _] _].
  exact Hfalse.
Defined.

Lemma upload_keys_are_normalised_witness :
  exists evs,
    attempts evs
    = [("out/a.png", "bucket", "run1/a.png"); ("out/b.png", "bucket", "run1/b.png");
       ("out/sub/c.png", "bucket", "run1/sub/c.png")] /\
    forall f b k, In (f, b, k) (attempts evs) ->
      (forall x y, k <> x +:+ String "\" y) /\
      exists base_key, parse_s3_url "s3://bucket/run1" = Ok (b, base_key).
Proof.
  set (run := upload_directory (Handler true) "out" "s3://bucket/run1"
                (start three_files)).
  exists (log (snd run)). split; [reflexivity|].
  apply (upload_keys_are_normalised (Handler true) "out" "s3://bucket/run1"
           (start three_files) (snd run) (fst run)).
  - apply surjective_pairing.
  - reflexivity.
Defined.

Lemma download_file_bare_filename_witness :
  (forall a b, "clip.mp4" <> a +:+ String "/" b) /\
  fst (download_file (Handler true) "s3://bucket/clip.mp4" "clip.mp4" (start zero_byte))
  = Ok false.
Proof.
  assert (Hno : forall a b, "clip.mp4" <> a +:+ String "/" b).
  { intros a b Heq.
    do 8 (destruct a as [|? a]; [discriminate|]; injection Heq as _ Heq).
    destruct a; discriminate. }
  split; [exact Hno|].
  destruct (download_file_bare_filename (Handler true) "s3://bucket/clip.mp4"
              "clip.mp4" (start zero_byte) Hno) as (s' & Hrun & _).
  by rewrite Hrun.
Defined.

End S3HandlerFacts.

(** ** Further properties of the media adapter *)

Module VideoProcessorFacts.
Import Steps VideoProcessor Scenarios Scripted VideoProcessorProofs.

Lemma find_video_stream_skips (before rest : list json) :
  Forall (fun st => exists ct, json_get "codec_type" st = Ok ct /\
                               json_is_str ct "video" = false) before ->
  find_video_stream (before ++ rest) = find_video_stream rest.
Proof.
  induction 1 as [|st before (ct & Hct & Hno) _ IH]; simpl; [done|].
  unfold mbind, result_bind, rbind. by rewrite Hct, Hno.
Qed.

(** The stream loop takes the first stream whose codec_type is 'video':
    it returns a stream exactly when the streams before it all carry a
    codec_type other than 'video', and returns None exactly when every
    stream does. *)
Theorem find_video_stream_first (streams : list json) :
  (forall stream,
     find_video_stream streams = Ok (Some stream) <->
     exists before after,
       streams = before ++ stream :: after /\
       (exists ct, json_get "codec_type" stream = Ok ct /\
                   json_is_str ct "video" = true) /\
       Forall (fun st => exists ct, json_get "codec_type" st = Ok ct /\
                                    json_is_str ct "video" = false) before) /\
  (find_video_stream streams = Ok None <->
   Forall (fun st => exists ct, json_get "codec_type" st = Ok ct /\
                                json_is_str ct "video" = false) streams).
Proof.
  assert (Hback : forall stream before after,
            (exists ct, json_get "codec_type" stream = Ok ct /\
                        json_is_str ct "video" = true) ->
            Forall (fun st => exists ct, json_get "codec_type" st = Ok ct /\
                                         json_is_str ct "video" = false) before ->
            find_video_stream (before ++ stream :: after) = Ok (Some stream)).
  { intros stream before after (ct & Hct & Hvideo) Hbefore.
    rewrite find_video_stream_skips by done. simpl.
    unfold mbind, result_bind, rbind. by rewrite Hct, Hvideo. }
  induction streams as [|st rest [IHsome IHnone]]; simpl.
  - split; [|split; [by constructor|done]].
    intros stream. split; [done|]. by intros ([|? ?] & ? & ? & _).
  - unfold mbind, result_bind, rbind.
    destruct (json_get "codec_type" st) as [ct|e] eqn:Hct.
    2:{ split; [|split; [done|]].
        - intros stream. split; [done|].
          intros (before & after & Heq & Hst & Hbefore).
          rewrite <- (Hback stream before after Hst Hbefore), <- Heq. simpl.
          unfold mbind, result_bind, rbind. by rewrite Hct.
        - intros [(ct & ? & _) _]%Forall_cons. congruence. }
    destruct (json_is_str ct "video") eqn:Hvideo.
    + split.
      * intros stream. split.
        -- intros [= <-]. exists [], rest. split; [done|].
           split; [by exists ct|by constructor].
        -- intros (before & after & Heq & Hst & Hbefore).
           rewrite <- (Hback stream before after Hst Hbefore), <- Heq. simpl.
           unfold mbind, result_bind, rbind. by rewrite Hct, Hvideo.
      * split; [done|].
        intros [(ct' & Hct' & Hno) _]%Forall_cons. congruence.
    + split.
      * intros stream. split.
        -- intros Hfind.
           destruct (proj1 (IHsome stream) Hfind)
             as (before & after & -> & Hst & Hbefore).
           exists (st :: before), after. split; [done|]. split; [done|].
           constructor; [by exists ct|done].
        -- intros (before & after & Heq & Hst & Hbefore).
           rewrite <- (Hback stream before after Hst Hbefore), <- Heq. simpl.
           unfold mbind, result_bind, rbind. by rewrite Hct, Hvideo.
      * rewrite IHnone. split.
        -- intros Hrest. constructor; [by exists ct|done].
        -- by intros [_ Hrest]%Forall_cons.
Qed.

(** What a nonzero [target_fps] does to the FFmpeg command: the two
    [insert] calls leave '-r' right after '-q:v', ahead of the quality
    value, and the rate between the quality value and the output pattern.
    Without a rate, or with rate 0, the command is the plain one. *)
Theorem extract_cmd_target_fps (video_path output_dir : string) (r : Z) :
  r <> 0 ->
  extract_cmd video_path output_dir (Some r)
  = ["ffmpeg"; "-i"; video_path; "-vf"; "scale=256:256";
     "-q:v"; "-r"; "2"; str_int r; output_dir +:+ "/frame_%05d.png"] /\
  extract_cmd video_path output_dir (Some 0) = extract_cmd video_path output_dir None.
Proof.
  intros Hr. unfold extract_cmd. apply Z.eqb_neq in Hr. rewrite Hr.
  split; reflexivity.
Qed.

Lemma extract_cmd_target_fps_witness :
  24 <> 0 /\
  extract_cmd "in.mp4" "frames" (Some 24)
  = ["ffmpeg"; "-i"; "in.mp4"; "-vf"; "scale=256:256";
     "-q:v"; "-r"; "2"; "24"; "frames/frame_%05d.png"].
Proof.
  split; [lia|]. apply (extract_cmd_target_fps "in.mp4" "frames" 24). lia.
Defined.

(** Renaming a frame to its mask: a name 'frame_' + rest, where rest has
    no letter f, becomes 'mask_' + rest, so mask and frame keep the same
    number. *)
Theorem mask_name_keeps_number (rest : string) :
  (forall a b, rest <> a +:+ String "f" b) ->
  replace ("frame_" +:+ rest) "frame_" "mask_" = "mask_" +:+ rest.
Proof.
  intros Hno. unfold replace.
  assert (Hrest : replace_from "frame_" "mask_" 0 rest = rest).
  { clear -Hno. induction rest as [|c rest IH]; [done|].
    assert (c <> "f"%char) as Hc.
    { intros ->. by destruct (Hno EmptyString rest). }
    cbn [replace_from].
    replace (String.prefix "frame_" (String c rest)) with false.
    - f_equal. apply IH. intros a b ->. by destruct (Hno (String c a) b).
    - clear -Hc. destruct c as [[] [] [] [] [] [] [] []]; done. }
  change ("frame_" +:+ rest) with (String "f" ("rame_" +:+ rest)).
  cbn [replace_from].
  replace (String.prefix "frame_" (String "f" ("rame_" +:+ rest))) with true
    by (by destruct rest).
  change (replace_from "frame_" "mask_" (String.length "frame_" - 1)
            ("rame_" +:+ rest))
    with (replace_from "frame_" "mask_" 0 rest).
  by rewrite Hrest.
Qed.

Lemma mask_name_keeps_number_witness :
  (forall a b, "00042.png" <> a +:+ String "f" b) /\
  replace "frame_00042.png" "frame_" "mask_" = "mask_00042.png".
Proof.
  assert (Hno : forall a b, "00042.png" <> a +:+ String "f" b).
  { intros a b Heq.
    do 9 (destruct a as [|? a]; [discriminate|]; injection Heq as _ Heq).
    destruct a; discriminate. }
  split; [exact Hno|]. apply (mask_name_keeps_number "00042.png" Hno).
Defined.

Section Methods.
Context {W : Type} `{World W} `{PyLib}.

(** [get_video_info] never raises and runs one tool, ffprobe.  It returns
    video info exactly when ffprobe exited with code 0, its output parsed
    as JSON with a 'streams' entry that holds a video stream, and width,
    height, frame rate and duration could be read; width, height and
    frame rate are those of the first video stream, the duration is that
    of the container. *)
Theorem get_video_info_contract (video_path : string) (s : state W) :
  let cmd := ["ffprobe"; "-v"; "quiet"; "-print_format"; "json";
              "-show_format"; "-show_streams"; video_path] in
  exists (info : option video_info) (s' : state W) (evs : list event),
    get_video_info video_path s = (Ok info, s') /\
    log s' = log s ++ evs /\
    tool_runs evs = [cmd] /\
    world s' = snd (subprocess_run cmd (world s)) /\
    (forall i, info = Some i ->
      exists res data streams items stream,
        fst (subprocess_run cmd (world s)) = Ok res /\
        returncode res = 0 /\
        json_loads (stdout res) = Ok data /\
        json_get "streams" data = Ok streams /\
        json_iter streams = Ok items /\
        find_video_stream items = Ok (Some stream) /\
        (v ← json_get "width" stream; py_int v) = Ok (width i) /\
        (v ← json_get "height" stream; py_int v) = Ok (height i) /\
        (r ← json_get "r_frame_rate" stream;
         match r with
         | JStr text => py_eval text
         | _ => Raise (Exn TypeError "eval() arg 1 must be a string")
         end) = Ok (fps i) /\
        (format ← json_get "format" data;
         v ← json_get "duration" format; py_float v) = Ok (duration i)) /\
    (forall res w1 data streams items stream wv w hv h text f format dv d,
       subprocess_run cmd (world s) = (Ok res, w1) ->
       returncode res = 0 ->
       json_loads (stdout res) = Ok data ->
       json_get "streams" data = Ok streams ->
       json_iter streams = Ok items ->
       find_video_stream items = Ok (Some stream) ->
       json_get "width" stream = Ok wv -> py_int wv = Ok w ->
       json_get "height" stream = Ok hv -> py_int hv = Ok h ->
       json_get "r_frame_rate" stream = Ok (JStr text) -> py_eval text = Ok f ->
       json_get "format" data = Ok format ->
       json_get "duration" format = Ok dv -> py_float dv = Ok d ->
       info = Some (VideoInfo w h f d)).
Proof.
  intros cmd. unfold get_video_info. fold cmd. run.
  destruct (subprocess_run cmd (world s)) as [[res|e] w1] eqn:Hrun; simpl.
  2:{ name_run s. do 5 (split; [done|]). intros; congruence. }
  destruct (returncode res =? 0) eqn:Hrc; simpl.
  2:{ name_run s. do 5 (split; [done|]). apply Z.eqb_neq in Hrc.
      intros; congruence. }
  apply Z.eqb_eq in Hrc.
  destruct (json_loads (stdout res)) as [data|e] eqn:Hdata; simpl.
  2:{ name_run s. do 5 (split; [done|]). intros; congruence. }
  unfold result_bind, rbind.
  destruct (json_get "streams" data) as [streams|e] eqn:Hstreams; simpl.
  2:{ name_run s. do 5 (split; [done|]). intros; congruence. }
  destruct (json_iter streams) as [items|e] eqn:Hitems; simpl.
  2:{ name_run s. do 5 (split; [done|]). intros; congruence. }
  destruct (find_video_stream items) as [[stream|]|e] eqn:Hfind; simpl.
  2,3: name_run s; do 5 (split; [done|]); intros; congruence.
  destruct (json_get "width" stream) as [wv|e] eqn:Hwv; simpl.
  2:{ name_run s. do 5 (split; [done|]). intros; congruence. }
  destruct (py_int wv) as [wd|e] eqn:Hwd; simpl.
  2:{ name_run s. do 5 (split; [done|]). intros; congruence. }
  destruct (json_get "height" stream) as [hv|e] eqn:Hhv; simpl.
  2:{ name_run s. do 5 (split; [done|]). intros; congruence. }
  destruct (py_int hv) as [ht|e] eqn:Hht; simpl.
  2:{ name_run s. do 5 (split; [done|]). intros; congruence. }
  destruct (json_get "r_frame_rate" stream) as [rv|e] eqn:Hrv; simpl.
  2:{ name_run s. do 5 (split; [done|]). intros; congruence. }
  destruct rv as [| | | |text| |]; simpl;
    try (name_run s; do 5 (split; [done|]); intros; congruence).
  destruct (py_eval text) as [rate|e] eqn:Hrate; simpl.
  2:{ name_run s. do 5 (split; [done|]). intros; congruence. }
  destruct (json_get "format" data) as [fmt|e] eqn:Hfmt; simpl.
  2:{ name_run s. do 5 (split; [done|]). intros; congruence. }
  destruct (json_get "duration" fmt) as [dv|e] eqn:Hdv; simpl.
  2:{ name_run s. do 5 (split; [done|]). intros; congruence. }
  destruct (py_float dv) as [dur|e] eqn:Hdur; simpl.
  2:{ name_run s. do 5 (split; [done|]). intros; congruence. }
  name_run s. do 4 (split; [reflexivity|]). split.
  - intros i [= <-]. exists res, data, streams, items, stream. simpl.
    rewrite Hwv, Hhv, Hrv, Hfmt. simpl. rewrite Hdv. by repeat split.
  - intros; congruence.
Qed.

Lemma tool_runs_cons (ev : event) (evs : list event) :
  tool_runs (ev :: evs) = tool_runs [ev] ++ tool_runs evs.
Proof. apply (tool_runs_app [ev]). Qed.

(** [extract_frames] never raises.  The tools it runs are none, ffprobe
    alone, or ffprobe followed by FFmpeg with the command of lines 36-46;
    it returns True only in the last case, after it has created the
    output directory and FFmpeg has exited with code 0. *)
Theorem extract_frames_contract (video_path output_dir : string)
    (target_fps : option Z) (s : state W) :
  let probe := ["ffprobe"; "-v"; "quiet"; "-print_format"; "json";
                "-show_format"; "-show_streams"; video_path] in
  let cmd := extract_cmd video_path output_dir target_fps in
  exists (ok : bool) (s' : state W) (evs : list event),
    extract_frames video_path output_dir target_fps s = (Ok ok, s') /\
    log s' = log s ++ evs /\
    (tool_runs evs = [] \/ tool_runs evs = [probe] \/ tool_runs evs = [probe; cmd]) /\
    (ok = true ->
       tool_runs evs = [probe; cmd] /\
       In (EMakedirs output_dir) evs /\
       exists res, In (ERun cmd (Ok res)) evs /\ returncode res = 0).
Proof.
  intros probe cmd. unfold extract_frames, makedirs. fold cmd.
  destruct output_dir as [|c d] eqn:Hdir.
  { run. name_run s. split; [reflexivity|]. split; [reflexivity|].
    split; [by left|done]. }
  rewrite <- Hdir in *. clear Hdir.
  unfold try_except, mbind, M_bind, Sys.bind at 1, Sys.bind at 1, emit.
  simpl.
  destruct (os_makedirs output_dir (world s)) as [[[]|e] w1]; simpl.
  2:{ run. name_run s. split; [reflexivity|]. split; [reflexivity|].
      split; [by left|done]. }
  unfold Sys.bind at 1.
  destruct (get_video_info_returns video_path
              (State w1 (log s ++ [EMakedirs output_dir])))
    as (info & [w2 l2] & evs1 & Hrun & Hlog1 & Htools).
  rewrite Hrun. simpl in Hlog1. subst l2. fold probe in Htools.
  destruct info as [info|]; run.
  2:{ name_run s. split; [reflexivity|]. split; [reflexivity|].
      rewrite tool_runs_cons, Htools. split; [by right; left|done]. }
  destruct (subprocess_run cmd w2) as [[res|e] w3]; simpl.
  2:{ name_run s. split; [reflexivity|]. split; [reflexivity|].
      rewrite tool_runs_cons, tool_runs_app, Htools.
      split; [by right; right|done]. }
  destruct (returncode res =? 0) eqn:Hrc; simpl.
  2:{ name_run s. split; [reflexivity|]. split; [reflexivity|].
      rewrite tool_runs_cons, tool_runs_app, Htools.
      split; [by right; right|done]. }
  apply Z.eqb_eq in Hrc.
  destruct (os_listdir output_dir w3) as [names|e]; simpl.
  2:{ name_run s. split; [reflexivity|]. split; [reflexivity|].
      rewrite tool_runs_cons, tool_runs_app, Htools.
      split; [by right; right|done]. }
  name_run s. split; [reflexivity|]. split; [reflexivity|].
  rewrite tool_runs_cons, tool_runs_app, Htools.
  split; [by right; right|]. intros _. split; [done|].
  split; [by left|]. exists res. split; [|done].
  right. apply in_or_app. right. simpl. tauto.
Qed.

Lemma for_each_imwrite {A} (xs : list A) (path : A -> string) (img : A -> image)
    (s : state W) :
  exists w',
    for_each xs (fun x => imwrite (path x) (img x)) s
    = (Ok tt, State w' (log s ++ map (fun x => EImwrite (path x) (img x)) xs)).
Proof.
  revert s. induction xs as [|x xs IH]; intros s; simpl.
  - exists (world s). unfold Sys.ret. rewrite app_nil_r. by destruct s.
  - unfold Sys.bind, imwrite at 1.
    destruct (IH (State (cv2_imwrite (path x) (img x) (world s))
                        (log s ++ [EImwrite (path x) (img x)]))) as (w' & ->).
    exists w'. simpl. by rewrite <- app_assoc.
Qed.

(** [generate_subtitle_masks] never raises, runs no tool, and writes all
    masks or none.  When it returns True it has created the mask directory
    and written one mask per '*.png' entry of the frame directory, in
    sorted order, under the frame's name with 'frame_' replaced by
    'mask_', every one the 256 by 256 mask of the region; when it returns
    False it has written no file. *)
Theorem generate_subtitle_masks_contract (frames_dir masks_dir : string)
    (subtitle_region : option (Z * Z * Z * Z)) (s : state W) :
  let region := default default_subtitle_region subtitle_region in
  exists (ok : bool) (s' : state W) (evs : list event),
    generate_subtitle_masks frames_dir masks_dir subtitle_region s = (Ok ok, s') /\
    log s' = log s ++ evs /\
    tool_runs evs = [] /\
    (ok = false -> Pipeline.written evs = []) /\
    (ok = true ->
       exists names,
         os_listdir frames_dir (world s) = Ok names /\
         png_files names <> [] /\
         In (EMakedirs masks_dir) evs /\
         Pipeline.written evs
         = map (fun f => (masks_dir +:+ "/" +:+ replace f "frame_" "mask_",
                          Gray (subtitle_mask (256, 256) region)))
               (sorted (png_files names))).
Proof.
  intros region. unfold generate_subtitle_masks. fold region.
  unfold try_except, mbind, M_bind, Sys.bind at 1, query_r.
  destruct (os_listdir frames_dir (world s)) as [names|e] eqn:Hls.
  2:{ run. name_run s. by repeat split. }
  destruct (sorted (png_files names)) as [|f fs] eqn:Hsorted.
  { run. name_run s. by repeat split. }
  assert (Hne : png_files names <> []).
  { intros Hnil. apply sorted_nil in Hnil. congruence. }
  rewrite <- Hsorted. clear Hsorted f fs.
  unfold Sys.bind at 1, makedirs.
  destruct masks_dir as [|c d] eqn:Hdir.
  { run. name_run s. by repeat split. }
  rewrite <- Hdir in *. clear Hdir c d.
  unfold Sys.bind at 1, emit. simpl.
  destruct (os_makedirs masks_dir (world s)) as [[[]|e] w1]; simpl.
  2:{ run. name_run s. by repeat split. }
  unfold Sys.bind at 1, print at 1, emit. simpl.
  unfold Sys.bind at 1.
  set (s1 := State w1 _).
  destruct (for_each_imwrite (sorted (png_files names))
              (fun frame_file => masks_dir +:+ "/" +:+ replace frame_file "frame_" "mask_")
              (fun _ => Gray (subtitle_mask (256, 256) region)) s1) as (w2 & ->).
  subst s1. run. name_run s.
  split; [reflexivity|]. split; [reflexivity|].
  set (masks := map _ (sorted (png_files names))).
  assert (Htools : tool_runs masks = []).
  { subst masks. clear. induction (sorted (png_files names)) as [|f fs IH]; [done|].
    exact IH. }
  assert (Hwritten : Pipeline.written masks
            = map (fun f => (masks_dir +:+ "/" +:+ replace f "frame_" "mask_",
                             Gray (subtitle_mask (256, 256) region)))
                  (sorted (png_files names))).
  { subst masks. induction (sorted (png_files names)) as [|f fs IH]; [done|].
    simpl. by rewrite <- IH. }
  split.
  { rewrite (tool_runs_cons (EMakedirs masks_dir)).
    rewrite (tool_runs_cons (EPrint _) (masks ++ _)).
    by rewrite tool_runs_app, Htools. }
  split; [done|]. intros _. exists names. split; [done|]. split; [done|].
  split; [by left|].
  change (Pipeline.written (masks ++ [EPrint [PStr "✅ Generated ";
             PInt (Z.of_nat (length (sorted (png_files names))));
             PStr " subtitle masks"]]) = map (fun f => (masks_dir +:+ "/" +:+ replace f "frame_" "mask_",
                             Gray (subtitle_mask (256, 256) region)))
                  (sorted (png_files names))).
  by rewrite written_app, Hwritten, app_nil_r.
Qed.

(** The command line of video_processor.py.  With fewer than two
    arguments after the script name it prints the four usage lines and
    runs nothing.  A command other than extract, create or info does
    nothing at all.  'extract' and 'create' without a third argument use
    the defaults 'extracted_frames' and 'output.mp4' (at 30 fps with
    libx264). *)
Theorem main_dispatch (argv : list string) (s : state W) :
  ((length argv <= 2)%nat ->
     exists evs, main argv s = (Ok tt, State (world s) (log s ++ evs)) /\
                 length evs = 4%nat /\ tool_runs evs = []) /\
  (forall prog command arg rest,
     argv = prog :: command :: arg :: rest ->
     command <> "extract" -> command <> "create" -> command <> "info" ->
     main argv s = (Ok tt, s)) /\
  (forall prog arg,
     argv = [prog; "extract"; arg] ->
     snd (main argv s) = snd (extract_frames arg "extracted_frames" None s)) /\
  (forall prog arg,
     argv = [prog; "create"; arg] ->
     snd (main argv s) = snd (create_video arg "output.mp4" 30 "libx264" s)).
Proof.
  split; [|split; [|split]].
  - intros Hlen. unfold main.
    replace (2 <? length argv)%nat with false by (symmetry; apply Nat.ltb_ge; lia).
    run. eexists. tidy_log. split; [reflexivity|]. by split.
  - intros prog command arg rest -> Hx Hc Hi. unfold main. simpl.
    apply String.eqb_neq in Hx, Hc, Hi. rewrite Hx, Hc, Hi.
    by destruct s.
  - intros prog arg ->. unfold main. simpl. run.
    by destruct (extract_frames arg "extracted_frames" None s) as [[?|?] ?].
  - intros prog arg ->. unfold main. simpl. run.
    by destruct (create_video arg "output.mp4" 30 "libx264" s) as [[?|?] ?].
Qed.

End Methods.

Lemma get_video_info_contract_witness :
  exists i,
    fst (get_video_info "in.mp4" (start quiet)) = Ok (Some i) /\
    width i = 1920 /\ height i = 1080 /\ Qeq_bool (fps i) (30 # 1) = true.
Proof.
  destruct (get_video_info_contract "in.mp4" (start quiet))
    as (info & s' & evs & Hrun & _ & _ & _ & _ & Hconverse).
  exists (VideoInfo 1920 1080 (30 # 1) (2 # 1)).
  rewrite Hrun. simpl. split; [|by repeat split]. f_equal.
  eapply Hconverse; reflexivity.
Defined.

Lemma extract_frames_contract_witness :
  exists s',
    extract_frames "in.mp4" "frames" None (start quiet) = (Ok true, s') /\
    tool_runs (log s')
    = [["ffprobe"; "-v"; "quiet"; "-print_format"; "json";
        "-show_format"; "-show_streams"; "in.mp4"];
       extract_cmd "in.mp4" "frames" None].
Proof.
  destruct (extract_frames_contract "in.mp4" "frames" None (start quiet))
    as (ok & s' & evs & Hrun & Hlog & _ & Htrue).
  assert (Hok : ok = true).
  { assert (Ok ok = fst (extract_frames "in.mp4" "frames" None (start quiet)))
      as Heq by (by rewrite Hrun).
    vm_compute in Heq. by injection Heq. }
  subst ok. exists s'. split; [exact Hrun|].
  destruct (Htrue eq_refl) as (Htools & _).
  simpl in Hlog. by rewrite Hlog.
Defined.

Lemma generate_subtitle_masks_contract_witness :
  exists s',
    generate_subtitle_masks "frames" "masks" None (start two_frames) = (Ok true, s') /\
    map fst (Pipeline.written (log s'))
    = ["masks/mask_00001.png"; "masks/mask_00002.png"].
Proof.
  destruct (generate_subtitle_masks_contract "frames" "masks" None (start two_frames))
    as (ok & s' & evs & Hrun & Hlog & _ & _ & Htrue).
  assert (Hok : ok = true).
  { assert (Ok ok = fst (generate_subtitle_masks "frames" "masks" None
                           (start two_frames))) as Heq by (by rewrite Hrun).
    vm_compute in Heq. by injection Heq. }
  subst ok. exists s'. split; [exact Hrun|].
  destruct (Htrue eq_refl) as (names & Hnames & _ & _ & Hwritten).
  simpl in Hlog. rewrite Hlog, Hwritten. injection Hnames as <-.
  rewrite map_map. reflexivity.
Defined.

End VideoProcessorFacts.

(** ** Further properties of capability detection *)

Module GpuDetectorFacts.
Import GpuDetector.

(** With an accelerator present, [detect_gpu] needs all three further
    queries: it raises exactly when the device count, the device name or
    the device properties cannot be read, and the exception is the first
    one met in that order.  Otherwise the profile carries the count, the
    name and the memory in GiB. *)
Theorem detect_gpu_with_accelerator (torch : torch_cuda) :
  is_available torch = true ->
  match device_count torch, get_device_name torch 0, total_memory torch 0 with
  | Ok n, Ok name, Ok mem =>
      exists config,
        detect_gpu torch = Ok config /\
        config !! "gpu_available" = Some (VBool true) /\
        config !! "device" = Some (VStr "cuda") /\
        config !! "download_weights" = Some (VBool true) /\
        config !! "gpu_count" = Some (VInt n) /\
        config !! "gpu_name" = Some (VStr name) /\
        config !! "gpu_memory" = Some (VFloat (mem # 1073741824))
  | Raise e, _, _ => detect_gpu torch = Raise e
  | Ok _, Raise e, _ => detect_gpu torch = Raise e
  | Ok _, Ok _, Raise e => detect_gpu torch = Raise e
  end.
Proof.
  intros Hav. unfold detect_gpu. rewrite Hav.
  destruct (device_count torch) as [n|e]; simpl; [|done].
  destruct (get_device_name torch 0) as [name|e]; simpl; [|done].
  destruct (total_memory torch 0) as [mem|e]; simpl; [|done].
  eexists. split; [reflexivity|]. by repeat split.
Qed.

Lemma detect_gpu_with_accelerator_witness :
  is_available one_gpu = true /\
  exists config,
    detect_gpu one_gpu = Ok config /\
    config !! "gpu_name" = Some (VStr "Tesla T4") /\
    config !! "gpu_memory" = Some (VFloat (16106127360 # 1073741824)).
Proof.
  split; [reflexivity|].
  destruct (detect_gpu_with_accelerator one_gpu eq_refl)
    as (config & Hrun & _ & _ & _ & _ & Hname & Hmem).
  by exists config.
Defined.

Lemma main_of_config torch environ config (avail : bool) (device : string) :
  detect_gpu torch = Ok config ->
  is_ok (print_config config) = true ->
  getitem config "device" = Ok (VStr device) ->
  getitem config "gpu_available" = Ok (VBool avail) ->
  getitem config "download_weights" = Ok (VBool avail) ->
  exists out,
    main torch environ
    = Ok (out,
          <["PIPELINE_DOWNLOAD_WEIGHTS" := str_lower_bool avail]>
          (<["PIPELINE_GPU_AVAILABLE" := str_lower_bool avail]>
          (<["PIPELINE_DEVICE" := device]> environ)),
          if avail then 0 else 1).
Proof.
  intros Hdet Hprint Hdev Hav Hdl. unfold main.
  unfold mbind, result_bind. rewrite Hdet. cbn [rbind].
  destruct (print_config config) as [out|e]; [|done]. cbn [rbind].
  rewrite Hdev. cbn [rbind environ_value]. rewrite Hav. cbn [rbind str_lower].
  rewrite Hdl. cbn [rbind str_lower truthy]. by exists out.
Qed.

Lemma detect_gpu_profile torch config :
  detect_gpu torch = Ok config ->
  is_ok (print_config config) = true /\
  getitem config "device" = Ok (VStr (if is_available torch then "cuda" else "cpu")) /\
  getitem config "gpu_available" = Ok (VBool (is_available torch)) /\
  getitem config "download_weights" = Ok (VBool (is_available torch)).
Proof.
  unfold detect_gpu. destruct (is_available torch).
  - destruct (device_count torch) as [n|e]; simpl; [|done].
    destruct (get_device_name torch 0) as [name|e]; simpl; [|done].
    destruct (total_memory torch 0) as [mem|e]; simpl; [|done].
    intros [= <-]. by vm_compute.
  - simpl. intros [= <-]. by vm_compute.
Qed.

(** [main] fails only if [detect_gpu] does.  When it returns, its exit
    code is 0 with an accelerator and 1 without; PIPELINE_DEVICE is 'cuda'
    or 'cpu' accordingly, PIPELINE_GPU_AVAILABLE and
    PIPELINE_DOWNLOAD_WEIGHTS are both 'true' or both 'false', and every
    other variable of the environment keeps its value. *)
Theorem main_publishes_profile (torch : torch_cuda) (environ : gmap string string) :
  (is_ok (main torch environ) = is_ok (detect_gpu torch)) /\
  (forall out environ' code,
     main torch environ = Ok (out, environ', code) ->
     let avail := is_available torch in
     code = (if avail then 0 else 1) /\
     environ' !! "PIPELINE_DEVICE" = Some (if avail then "cuda" else "cpu") /\
     environ' !! "PIPELINE_GPU_AVAILABLE" = Some (if avail then "true" else "false") /\
     environ' !! "PIPELINE_DOWNLOAD_WEIGHTS" = Some (if avail then "true" else "false") /\
     forall k, k <> "PIPELINE_DEVICE" -> k <> "PIPELINE_GPU_AVAILABLE" ->
               k <> "PIPELINE_DOWNLOAD_WEIGHTS" -> environ' !! k = environ !! k).
Proof.
  destruct (detect_gpu torch) as [config|e] eqn:Hdet.
  2:{ unfold main. rewrite Hdet. split; [done|]. by intros out environ' code. }
  destruct (detect_gpu_profile torch config Hdet) as (Hprint & Hdev & Hav & Hdl).
  destruct (main_of_config torch environ config _ _ Hdet Hprint Hdev Hav Hdl)
    as (out0 & Hmain).
  rewrite Hmain. split; [done|].
  intros out environ' code [= <- <- <-]. intros avail. subst avail.
  split; [done|].
  split; [by rewrite lookup_insert_ne, lookup_insert_ne, lookup_insert_eq|].
  split; [rewrite lookup_insert_ne, lookup_insert_eq by done;
          by destruct (is_available torch)|].
  split; [rewrite lookup_insert_eq; by destruct (is_available torch)|].
  intros k H1 H2 H3. by rewrite !lookup_insert_ne.
Qed.

Lemma main_publishes_profile_witness :
  exists out environ',
    main no_gpu {["PATH" := "/usr/bin"]} = Ok (out, environ', 1) /\
    environ' !! "PIPELINE_DEVICE" = Some "cpu" /\
    environ' !! "PATH" = Some "/usr/bin".
Proof.
  destruct (main no_gpu {["PATH" := "/usr/bin"]}) as [[[out environ'] code]|e] eqn:Hmain.
  - destruct (main_publishes_profile no_gpu {["PATH" := "/usr/bin"]}) as [_ Hpub].
    destruct (Hpub out environ' code Hmain) as (-> & Hdev & _ & _ & Hother).
    exists out, environ'. split; [done|]. split; [done|].
    by rewrite Hother.
  - by vm_compute in Hmain.
Defined.

End GpuDetectorFacts.

(** ** Further properties of masks and generators *)

Module PipelineFacts.
Import Steps VideoProcessor Pipeline Scenarios Scripted PipelineProofs.

Lemma between_comm a b x : between a b x = between b a x.
Proof. unfold between. by rewrite Z.min_comm, Z.max_comm. Qed.

(** The mask for any region, valid or not: the array always has the
    frame's shape, a pixel is 255 exactly when it lies between the two
    corner points, in either order, and the part of the rectangle that
    falls outside the array is dropped without error.  Swapping the two
    corners gives the same mask. *)
Theorem subtitle_mask_any_region (width height x1 y1 x2 y2 : Z) :
  0 <= width -> 0 <= height ->
  let mask := subtitle_mask (height, width) (x1, y1, x2, y2) in
  has_shape mask height width /\
  (forall x y, 0 <= x < width -> 0 <= y < height ->
     pixel mask x y
     = Some (if between x1 x2 x && between y1 y2 y then 255 else 0)) /\
  (forall x y, ~ (0 <= x < width /\ 0 <= y < height) -> pixel mask x y = None) /\
  subtitle_mask (height, width) (x2, y2, x1, y1) = mask.
Proof.
  intros Hw Hh mask. subst mask. unfold subtitle_mask, cv2_rectangle. simpl.
  split; [by apply has_shape_paint, has_shape_replicate|].
  split; [intros x y Hx Hy; by apply pixel_paint_zeros|].
  split.
  - intros x y Hout. unfold pixel, paint, np_zeros.
    destruct (x <? 0) eqn:Hx0; [done|]. destruct (y <? 0) eqn:Hy0; [done|].
    simpl. rewrite list_lookup_imap.
    destruct (decide (y < height)) as [Hy|Hy].
    + rewrite lookup_replicate_2 by lia. simpl. rewrite list_lookup_imap.
      rewrite (proj1 (lookup_replicate_None _ _ _)); [done|lia].
    + rewrite (proj1 (lookup_replicate_None _ _ _)); [done|lia].
  - unfold paint. apply imap_ext. intros y row _. apply imap_ext. intros x v _.
    simpl. by rewrite (between_comm x2 x1), (between_comm y2 y1).
Qed.

Lemma subtitle_mask_any_region_witness :
  0 <= 6 /\ 0 <= 4 /\
  pixel (subtitle_mask (4, 6) (-3, 2, 9, 7)) 5 3 = Some 255 /\
  pixel (subtitle_mask (4, 6) (-3, 2, 9, 7)) 5 1 = Some 0 /\
  pixel (subtitle_mask (4, 6) (-3, 2, 9, 7)) 6 3 = None.
Proof.
  assert (Hw : 0 <= 6) by lia. assert (Hh : 0 <= 4) by lia.
  split; [exact Hw|]. split; [exact Hh|].
  destruct (subtitle_mask_any_region 6 4 (-3) 2 9 7 Hw Hh)
    as (_ & Hin & Hout & _).
  split; [|split].
  - rewrite (Hin 5 3) by lia. reflexivity.
  - rewrite (Hin 5 1) by lia. reflexivity.
  - apply Hout. lia.
Defined.

Lemma imap2_all {A B} (P : B -> Prop) (f : nat -> nat -> A -> B)
    (img : list (list A)) :
  (forall y x v, P (f y x v)) ->
  Forall (Forall P) (imap (fun y row => imap (f y) row) img).
Proof.
  intros Hf. apply Forall_lookup. intros y row Hrow.
  rewrite list_lookup_imap in Hrow.
  destruct (img !! y) as [row0|]; simplify_eq/=.
  apply Forall_lookup. intros x v Hv.
  rewrite list_lookup_imap in Hv.
  destruct (row0 !! x) as [v0|]; simplify_eq/=. apply Hf.
Qed.

Lemma paint_all {A} (P : A -> Prop) covers (color : A) (img : list (list A)) :
  P color -> Forall (Forall P) img -> Forall (Forall P) (paint covers color img).
Proof.
  intros Hc Himg. unfold paint. apply Forall_lookup. intros y row Hrow.
  rewrite list_lookup_imap in Hrow.
  destruct (img !! y) as [row0|] eqn:Hrow0; simplify_eq/=.
  apply Forall_lookup. intros x v Hv.
  rewrite list_lookup_imap in Hv.
  destruct (row0 !! x) as [v0|] eqn:Hv0; simplify_eq/=.
  destruct (covers _ _); [done|].
  eapply Forall_lookup_1; [|exact Hv0].
  eapply Forall_lookup_1; [exact Himg|exact Hrow0].
Qed.

Section Generators.
Context {W : Type} `{World W} `{Raster} {F : Type} `{Floats F}.

(** Every pixel of a generated frame is a valid uint8 colour, whatever
    the float arithmetic and the rasteriser produce: the docker gradient
    is clamped to 0..255 channel by channel, the notebook gradient is
    stored modulo 256, and everything drawn on top uses constant colours.
    Every pixel of a mask is 0 or 255. *)
Theorem generated_pixels_are_valid (cfg : config) (i : Z) :
  Forall (Forall valid_pixel) (synthetic_frame cfg i) /\
  Forall (Forall valid_pixel) (test_frame cfg i) /\
  Forall (Forall (fun v => v = 0 \/ v = 255)) (mask_of cfg).
Proof.
  split; [|split].
  - unfold synthetic_frame, cv2_putText, cv2_circle, cv2_rectangle.
    repeat (apply paint_all; [unfold valid_pixel; lia|]).
    apply (imap2_all valid_pixel
             (fun y x _ => gradient_pixel _ (Z.of_nat x) (Z.of_nat y))).
    intros y x _. unfold gradient_pixel, valid_pixel, clamp255. lia.
  - unfold test_frame, cv2_putText.
    repeat (apply paint_all; [unfold valid_pixel; lia|]).
    apply (imap2_all valid_pixel
             (fun y _ _ => (uint8 (255 - Z.of_nat y / 3), uint8 (200 + Z.of_nat y / 8),
                            uint8 (180 + Z.of_nat y / 4)))).
    intros y x _. unfold valid_pixel, uint8.
    pose proof (Z.mod_pos_bound (255 - Z.of_nat y / 3) 256).
    pose proof (Z.mod_pos_bound (200 + Z.of_nat y / 8) 256).
    pose proof (Z.mod_pos_bound (180 + Z.of_nat y / 4) 256). lia.
  - unfold mask_of, subtitle_mask.
    destruct (subtitle_region cfg) as [[[x1 y1] x2] y2].
    unfold cv2_rectangle. apply paint_all; [by right|].
    unfold np_zeros. apply Forall_replicate, Forall_replicate. by left.
Qed.

(** [check_environment] never raises and touches nothing: it reads one
    path and prints.  Without torch the profile is the CPU one; with torch
    gpu_available is what torch answers, and device is 'cuda' exactly when
    gpu_available is True.  in_docker tells whether '/.dockerenv'
    exists. *)
Theorem check_environment_profile (torch : option GpuDetector.torch_cuda)
    (s : state W) :
  exists (env : gmap string value) (s' : state W) (evs : list event) (avail : bool),
    check_environment torch s = (Ok env, s') /\
    world s' = world s /\
    log s' = log s ++ evs /\
    tool_runs evs = [] /\ network_calls evs = [] /\ written evs = [] /\
    avail = from_option GpuDetector.is_available false torch /\
    env !! "gpu_available" = Some (VBool avail) /\
    env !! "device" = Some (VStr (if avail then "cuda" else "cpu")) /\
    env !! "in_docker" = Some (VBool (os_path_exists "/.dockerenv" (world s))).
Proof.
  unfold check_environment. run.
  destruct torch as [t|]; simpl.
  - destruct (GpuDetector.is_available t); run;
      (eexists _, _, _, _; split; [reflexivity|]; tidy_log;
       split; [reflexivity|]; split; [reflexivity|]; by repeat split).
  - eexists _, _, _, _. split; [reflexivity|]. tidy_log.
    split; [reflexivity|]. split; [reflexivity|]. by repeat split.
Qed.

Lemma loop_returns {A} (step : A -> M W unit) (g : A -> list event)
    (xs : list A) (s : state W) :
  (forall x st, In x xs -> exists w', step x st = (Ok tt, State w' (log st ++ g x))) ->
  exists w', for_each xs step s = (Ok tt, State w' (log s ++ flat_map g xs)).
Proof.
  revert s. induction xs as [|x xs IH]; intros s Hstep; simpl.
  - exists (world s). unfold Sys.ret. rewrite app_nil_r. by destruct s.
  - unfold Sys.bind. destruct (Hstep x s) as (w1 & ->); [by left|].
    destruct (IH (State w1 (log s ++ g x))) as (w' & ->).
    { intros y st Hin. apply Hstep. by right. }
    exists w'. simpl. by rewrite <- app_assoc.
Qed.

Lemma make_dir_returns (d : string) (st : state W) :
  d <> EmptyString ->
  (forall w, fst (os_makedirs d w) = Ok tt) ->
  exists w',
    (_ ← makedirs d; print [PStr "📁 Created directory: "; PStr d]) st
    = (Ok tt, State w' (log st ++ [EMakedirs d;
                                   EPrint [PStr "📁 Created directory: "; PStr d]])).
Proof.
  intros Hd Hmk. unfold makedirs. destruct d as [|c d]; [done|]. run.
  specialize (Hmk (world st)).
  destruct (os_makedirs (String c d) (world st)) as [[[]|e] w1]; [|done].
  simpl. eexists. tidy_log. reflexivity.
Qed.

(** When directory creation cannot fail, both generators return their
    config, and what they add to the log is fixed by the config: two
    files per index of range(frame_count), a frame then its mask, and
    nothing at all for a frame count of zero or less. *)
Theorem generators_return (cfg : config) (s : state W) :
  (forall d w, In d ([input_dir cfg; mask_dir cfg] ++ output_dirs cfg) ->
     d <> EmptyString /\ fst (os_makedirs d w) = Ok tt) ->
  (exists w', generate_synthetic_data_with cfg s
              = (Ok cfg, State w' (log s ++ synthetic_events cfg))) /\
  (exists w', generate_test_data_with cfg s
              = (Ok cfg, State w' (log s ++ test_events cfg))) /\
  length (synthetic_corpus cfg) = (2 * Z.to_nat (frame_count cfg))%nat /\
  length (test_corpus cfg) = (2 * Z.to_nat (frame_count cfg))%nat.
Proof.
  intros Hok. split; [|split; [|split]].
  - unfold generate_synthetic_data_with, synthetic_events, mbind, M_bind.
    unfold Sys.bind at 1.
    destruct (loop_returns
                (fun dir_path =>
                   Sys.bind (makedirs dir_path) (fun _ =>
                     print [PStr "📁 Created directory: "; PStr dir_path]))
                (fun dir_path =>
                 [EMakedirs dir_path;
                  EPrint [PStr "📁 Created directory: "; PStr dir_path]])
                [input_dir cfg; mask_dir cfg] s) as (w1 & ->).
    { intros d st Hin. apply make_dir_returns.
      - apply (Hok d (world st)). apply in_or_app. by left.
      - intros w. apply Hok. apply in_or_app. by left. }
    unfold Sys.bind at 1, print at 1, emit. cbn [fst snd world log].
    unfold Sys.bind at 1.
    match goal with |- context [for_each _ _ ?st] =>
      destruct (loop_returns (synthetic_step cfg)
                  (fun i => [EImwrite (input_dir cfg +:+ "/frame_" +:+
                                       zero_padded 5 (i + 1) +:+ ".png")
                               (Color (synthetic_frame cfg i));
                             EImwrite (mask_dir cfg +:+ "/mask_" +:+
                                       zero_padded 5 (i + 1) +:+ ".png")
                               (Gray (mask_of cfg))])
                  (range (frame_count cfg)) st) as (w2 & ->)
    end.
    { intros i st _. eexists. unfold synthetic_step. run. tidy_log. reflexivity. }
    run. eexists. tidy_log. reflexivity.
  - unfold generate_test_data_with, test_events, mbind, M_bind.
    unfold Sys.bind at 1.
    destruct (loop_returns
                (fun dir_path =>
                   Sys.bind (makedirs dir_path) (fun _ =>
                     print [PStr "📁 Created directory: "; PStr dir_path]))
                (fun dir_path =>
                 [EMakedirs dir_path;
                  EPrint [PStr "📁 Created directory: "; PStr dir_path]])
                ([input_dir cfg; mask_dir cfg] ++ output_dirs cfg) s) as (w1 & ->).
    { intros d st Hin. apply make_dir_returns.
      - by apply (Hok d (world st)).
      - intros w. by apply Hok. }
    unfold Sys.bind at 1, print at 1, emit. cbn [fst snd world log].
    unfold Sys.bind at 1.
    match goal with |- context [for_each _ _ ?st] =>
      destruct (loop_returns (test_step cfg)
                  (fun i => [EImwrite (input_dir cfg +:+ "/frame_" +:+
                                       zero_padded 3 i +:+ ".png")
                               (Color (test_frame cfg i));
                             EImwrite (mask_dir cfg +:+ "/mask_" +:+
                                       zero_padded 3 i +:+ ".png")
                               (Gray (mask_of cfg))])
                  (range (frame_count cfg)) st) as (w2 & ->)
    end.
    { intros i st _. eexists. unfold test_step. run. tidy_log. reflexivity. }
    run. eexists. tidy_log. reflexivity.
  - unfold synthetic_corpus, range.
    rewrite <- (length_seqZ 0 (frame_count cfg)).
    induction (seqZ 0 (frame_count cfg)) as [|i l IH]; simpl; lia.
  - unfold test_corpus, range.
    rewrite <- (length_seqZ 0 (frame_count cfg)).
    induction (seqZ 0 (frame_count cfg)) as [|i l IH]; simpl; lia.
Qed.

End Generators.

Lemma generators_return_witness :
  (forall d w, In d ([input_dir small_config; mask_dir small_config]
                     ++ output_dirs small_config) ->
     d <> EmptyString /\ fst (os_makedirs (W:=unit) d w) = Ok tt) /\
  fst (generate_test_data_with small_config (start tt)) = Ok small_config /\
  length (test_corpus small_config) = 4%nat.
Proof.
  assert (Hok : forall d w, In d ([input_dir small_config; mask_dir small_config]
                                  ++ output_dirs small_config) ->
                d <> EmptyString /\ fst (os_makedirs (W:=unit) d w) = Ok tt).
  { intros d w Hin. split; [|reflexivity].
    simpl in Hin. by destruct Hin as [<-|[<-|[]]]. }
  split; [exact Hok|].
  destruct (generators_return (F:=Z) small_config (start tt) Hok)
    as (_ & (w' & Hrun) & _ & Hlen).
  rewrite Hrun. split; [done|]. by rewrite Hlen.
Defined.

End PipelineFacts.

(** ** The mask and its region *)

Module MaskProofs.
Import Steps VideoProcessor Pipeline Scenarios Scripted PipelineProofs
  VideoProcessorFacts.

Section Masks.
Context {W : Type} `{World W} `{PyLib} `{Raster} {F : Type} `{Floats F}.

(** Whatever [generate_subtitle_masks] writes is the 256 by 256 mask of
    its region: the frame files are listed and never opened. *)
Lemma generate_subtitle_masks_writes (frames_dir masks_dir : string)
    (subtitle_region : option (Z * Z * Z * Z)) (s : state W) :
  exists (ok : bool) (s' : state W) (evs : list event),
    generate_subtitle_masks frames_dir masks_dir subtitle_region s = (Ok ok, s') /\
    log s' = log s ++ evs /\
    forall path img,
      In (path, img) (written evs) ->
      img = Gray (subtitle_mask (256, 256)
                    (default default_subtitle_region subtitle_region)).
Proof.
  unfold generate_subtitle_masks.
  set (region := default default_subtitle_region subtitle_region).
  unfold try_except, mbind, M_bind, Sys.bind at 1, query_r.
  destruct (os_listdir frames_dir (world s)) as [names|e] eqn:Hls.
  2:{ run. name_run s. split; [reflexivity|]. split; [reflexivity|]. by intros ? ? []. }
  destruct (sorted (png_files names)) as [|f fs] eqn:Hsorted.
  { run. name_run s. split; [reflexivity|]. split; [reflexivity|]. by intros ? ? []. }
  rewrite <- Hsorted. clear Hsorted f fs.
  unfold Sys.bind at 1, makedirs.
  destruct masks_dir as [|c d] eqn:Hdir.
  { run. name_run s. split; [reflexivity|]. split; [reflexivity|]. by intros ? ? []. }
  rewrite <- Hdir in *. clear Hdir c d.
  unfold Sys.bind at 1, emit. simpl.
  destruct (os_makedirs masks_dir (world s)) as [[[]|e] w1]; simpl.
  2:{ run. name_run s. split; [reflexivity|]. split; [reflexivity|]. by intros ? ? []. }
  unfold Sys.bind at 1, print at 1, emit. simpl.
  unfold Sys.bind at 1.
  set (s1 := State w1 _).
  destruct (for_each_imwrite (sorted (png_files names))
              (fun frame_file => masks_dir +:+ "/" +:+ replace frame_file "frame_" "mask_")
              (fun _ => Gray (subtitle_mask (256, 256) region)) s1) as (w2 & ->).
  subst s1. run. name_run s.
  split; [reflexivity|]. split; [reflexivity|].
  intros path img Hin.
  change (In (path, img)
            (written (map (fun x => EImwrite
                             (masks_dir +:+ "/" +:+ replace x "frame_" "mask_")
                             (Gray (subtitle_mask (256, 256) region)))
                          (sorted (png_files names)) ++
                      [EPrint [PStr "✅ Generated ";
                               PInt (Z.of_nat (length (sorted (png_files names))));
                               PStr " subtitle masks"]]))) in Hin.
  rewrite written_app in Hin. simpl in Hin. rewrite app_nil_r in Hin.
  induction (sorted (png_files names)) as [|f fs IH]; [done|].
  destruct Hin as [[= _ <-]|Hin]; [done|]. by apply IH.
Qed.

(** C8 as amended.  For a frame of [height] rows and [width] columns and
    a region with 0 <= x1 < x2 <= width and 0 <= y1 < y2 <= height, the
    mask is a one-channel array of [height] by [width] pixels in which a
    pixel is 255 exactly when x1 <= x <= x2 and y1 <= y <= y2, the
    rectangle between the two corner points with the corners included as
    cv2.rectangle fills it, and 0 otherwise.  So every pixel of the region
    is 255, and the only pixels beyond the region that are 255 lie in the
    column x2 or the row y2.  In the generators mask and frame have the
    same number of rows and columns; [generate_subtitle_masks] always
    writes the 256 by 256 mask, whatever the frames are. *)
Theorem subtitle_mask_fills_closed_rectangle (width height x1 y1 x2 y2 : Z) :
  0 <= x1 < x2 /\ x2 <= width ->
  0 <= y1 < y2 /\ y2 <= height ->
  let region := (x1, y1, x2, y2) in
  let mask := subtitle_mask (height, width) region in
  has_shape mask height width /\
  (forall x y, 0 <= x < width -> 0 <= y < height ->
     pixel mask x y = Some (if filled region x y then 255 else 0) /\
     (in_region region x y = true -> filled region x y = true) /\
     (filled region x y = true -> in_region region x y = false ->
      x = x2 \/ y = y2)) /\
  (forall (cfg : config) (i : Z),
     frame_size cfg = (height, width) -> subtitle_region cfg = region ->
     mask_of cfg = mask /\
     has_shape (synthetic_frame cfg i) height width /\
     has_shape (test_frame cfg i) height width) /\
  (forall (frames_dir masks_dir : string) (s : state W),
     exists (ok : bool) (s' : state W) (evs : list event),
       generate_subtitle_masks frames_dir masks_dir (Some region) s = (Ok ok, s') /\
       log s' = log s ++ evs /\
       forall path img,
         In (path, img) (written evs) ->
         img = Gray (subtitle_mask (256, 256) region) /\
         has_shape (subtitle_mask (256, 256) region) 256 256).
Proof.
  intros Hx Hy region mask. split; [|split; [|split]].
  - unfold mask, subtitle_mask, region, cv2_rectangle. simpl.
    apply has_shape_paint, has_shape_replicate; lia.
  - intros x y Hpx Hpy. split; [apply subtitle_mask_pixel; lia|].
    unfold in_region, filled, region.
    destruct (x1 <=? x) eqn:Hx1, (x <? x2) eqn:Hx2, (x <=? x2) eqn:Hx2',
      (y1 <=? y) eqn:Hy1, (y <? y2) eqn:Hy2, (y <=? y2) eqn:Hy2';
      simpl; split; try done; intros; lia.
  - intros cfg i Hsize Hregion. split; [|split].
    + unfold mask_of. by rewrite Hsize, Hregion.
    + pose proof (synthetic_frame_shape cfg i) as Hshape.
      rewrite Hsize in Hshape. apply Hshape; simpl; lia.
    + pose proof (test_frame_shape cfg i) as Hshape.
      rewrite Hsize in Hshape. apply Hshape; simpl; lia.
  - intros frames_dir masks_dir s.
    destruct (generate_subtitle_masks_writes frames_dir masks_dir (Some region) s)
      as (ok & s' & evs & Hrun & Hlog & Hmasks).
    exists ok, s', evs. split; [done|]. split; [done|].
    intros path img Hin. split; [by eapply Hmasks|].
    unfold subtitle_mask, region, cv2_rectangle. simpl.
    apply has_shape_paint, has_shape_replicate; lia.
Qed.

End Masks.

Lemma subtitle_mask_fills_closed_rectangle_witness :
  (0 <= 30 < 230 /\ 230 <= 256) /\ (0 <= 220 < 250 /\ 250 <= 256) /\
  pixel (subtitle_mask (256, 256) (30, 220, 230, 250)) 229 249 = Some 255 /\
  pixel (subtitle_mask (256, 256) (30, 220, 230, 250)) 230 250 = Some 255 /\
  pixel (subtitle_mask (256, 256) (30, 220, 230, 250)) 231 250 = Some 0.
Proof.
  assert (Hx : 0 <= 30 < 230 /\ 230 <= 256) by lia.
  assert (Hy : 0 <= 220 < 250 /\ 250 <= 256) by lia.
  split; [exact Hx|]. split; [exact Hy|].
  destruct (subtitle_mask_fills_closed_rectangle (W:=unit) (F:=Z)
              256 256 30 220 230 250 Hx Hy) as (_ & Hpixel & _).
  split; [|split].
  - destruct (Hpixel 229 249) as [-> _]; [lia..|]. reflexivity.
  - destruct (Hpixel 230 250) as [-> _]; [lia..|]. reflexivity.
  - destruct (Hpixel 231 250) as [-> _]; [lia..|]. reflexivity.
Defined.

(** C8 (the claim as stated fails).  For the region (30, 220, 230, 250) in
    a 256 by 256 frame, the pixels of column 230 and of row 250 lie
    outside the region, whose bounds x2 <= width and y2 <= height make it
    end before x2 and y2; the mask has them at 255. *)
Lemma subtitle_mask_fills_column_and_row_past_region :
  in_region (30, 220, 230, 250) 230 220 = false /\
  pixel (subtitle_mask (256, 256) (30, 220, 230, 250)) 230 220 = Some 255 /\
  in_region (30, 220, 230, 250) 100 250 = false /\
  pixel (subtitle_mask (256, 256) (30, 220, 230, 250)) 100 250 = Some 255.
Proof. repeat split; by vm_compute. Qed.

End MaskProofs.
